(** * Exoplanet detection API: request validation and prediction dispatch

    A shallow embedding of the Flask services of [backend/]:
    - [complete-backend-api.py]: [load_models], [predict_single],
      [predict_batch] (module [CompleteBackendApi]);
    - [backend2.py]: [predict_flux], [predict_features] (module [Backend2]).

    The trained models, the scaler and the label encoder are opaque
    artifacts: they appear as records of functions that may raise.  Python
    exceptions are values of type [exn]; the handlers run in a small
    state-and-error monad over a [world] holding the module-level globals,
    the wall clock and the log of calls made into the numerical libraries.

    Floating-point numbers are represented by exact rationals ([Q]);
    text is a byte string and [str.lower] acts on the ASCII letters. *)

From Stdlib Require Import Ascii String QArith Qround Lqa.
From stdpp Require Import base option list strings gmap pretty sorting.

Local Open Scope string_scope.
Set Warnings "-register-all".

(** ** Python values and exceptions *)

(** A value produced by [request.get_json()]. A [PDict] lists the items of
    the dict in insertion order; the keys of a parsed object are distinct. *)
Inductive pyval : Type :=
| PNone
| PBool (b : bool)
| PInt (z : Z)
| PFloat (q : Q)
| PStr (s : string)
| PList (l : list pyval)
| PDict (d : list (string * pyval)).

Inductive exn_kind : Set :=
| AttributeError | KeyError | TypeError | IndexError | ValueError | RuntimeError.

(** An exception instance; [exn_msg] is what [str(e)] returns. *)
Record exn : Set := Exn { exn_kind_of : exn_kind; exn_msg : string }.

Definition result (A : Type) : Type := (exn + A)%type.

(** [bool(v)] *)
Definition truthy (v : pyval) : bool :=
  match v with
  | PNone => false
  | PBool b => b
  | PInt z => negb (Z.eqb z 0)
  | PFloat q => negb (Qeq_bool q 0)
  | PStr s => negb (String.eqb s "")
  | PList l => match l with [] => false | _ => true end
  | PDict d => match d with [] => false | _ => true end
  end.

(** [type(v).__name__] *)
Definition type_name (v : pyval) : string :=
  match v with
  | PNone => "NoneType"
  | PBool _ => "bool"
  | PInt _ => "int"
  | PFloat _ => "float"
  | PStr _ => "str"
  | PList _ => "list"
  | PDict _ => "dict"
  end.

Definition no_attribute (v : pyval) (attr : string) : exn :=
  Exn AttributeError ("'" ++ type_name v ++ "' object has no attribute '" ++ attr ++ "'").

Fixpoint assoc (k : string) (d : list (string * pyval)) : option pyval :=
  match d with
  | [] => None
  | (k', v) :: rest => if String.eqb k k' then Some v else assoc k rest
  end.

Definition keys (d : list (string * pyval)) : list string := d.*1.

(** [v.get(k, default)]: only a dict has the method. *)
Definition py_get (v : pyval) (k : string) (default : pyval) : result pyval :=
  match v with
  | PDict d => inr (match assoc k d with Some x => x | None => default end)
  | _ => inl (no_attribute v "get")
  end.

(** [str.lower] on the bytes of a string: the letters [A] to [Z] are
    lower-cased and every other byte is kept. On an ASCII string this is
    [str.lower]. On other strings Python also lower-cases the letters
    beyond ASCII, which this leaves alone; no such letter becomes a letter
    of [xgboost] or [cnn], so the comparisons of lines 156 and 182 are
    decided alike. *)
Definition lower_ascii (c : ascii) : ascii :=
  let n := nat_of_ascii c in
  if (65 <=? n)%nat && (n <=? 90)%nat then ascii_of_nat (n + 32) else c.

Fixpoint lower (s : string) : string :=
  match s with
  | EmptyString => EmptyString
  | String c rest => String (lower_ascii c) (lower rest)
  end.

(** [v.lower()]: only a str has the method. *)
Definition py_lower (v : pyval) : result string :=
  match v with
  | PStr s => inr (lower s)
  | _ => inl (no_attribute v "lower")
  end.

Definition is_str (k : string) (v : pyval) : bool :=
  match v with PStr s => String.eqb s k | _ => false end.

Definition is_substring (k s : string) : bool :=
  match String.index 0 k s with Some _ => true | None => false end.

(** [k in v] *)
Definition py_contains (k : string) (v : pyval) : result bool :=
  match v with
  | PDict d => inr (bool_decide (k ∈ keys d))
  | PList l => inr (existsb (is_str k) l)
  | PStr s => inr (is_substring k s)
  | _ => inl (Exn TypeError ("argument of type '" ++ type_name v ++ "' is not iterable"))
  end.

(** [v[k]] for a string key [k] *)
Definition py_getitem (v : pyval) (k : string) : result pyval :=
  match v with
  | PDict d =>
      match assoc k d with
      | Some x => inr x
      | None => inl (Exn KeyError ("'" ++ k ++ "'"))
      end
  | PList _ => inl (Exn TypeError "list indices must be integers or slices, not str")
  | PStr _ => inl (Exn TypeError "string indices must be integers, not 'str'")
  | _ => inl (Exn TypeError ("'" ++ type_name v ++ "' object is not subscriptable"))
  end.

(** [len(v)] *)
Definition py_len (v : pyval) : result nat :=
  match v with
  | PList l => inr (length l)
  | PDict d => inr (length d)
  | PStr s => inr (String.length s)
  | _ => inl (Exn TypeError ("object of type '" ++ type_name v ++ "' has no len()"))
  end.

Fixpoint chars (s : string) : list pyval :=
  match s with
  | EmptyString => []
  | String c rest => PStr (String c EmptyString) :: chars rest
  end.

(** [iter(v)]: the items a [for] loop over [v] visits. *)
Definition py_iter (v : pyval) : result (list pyval) :=
  match v with
  | PList l => inr l
  | PDict d => inr (PStr <$> keys d)
  | PStr s => inr (chars s)
  | _ => inl (Exn TypeError ("'" ++ type_name v ++ "' object is not iterable"))
  end.

(** ** Numbers *)

(** Rounding to the nearest integer, ties to the even one. *)
Definition round_half_even (q : Q) : Z :=
  let f := Qfloor q in
  match Qcompare (q - inject_Z f) (1 # 2) with
  | Lt => f
  | Gt => (f + 1)%Z
  | Eq => if Z.even f then f else (f + 1)%Z
  end.

(** [round(q, 2)], as a fraction in lowest terms. *)
Definition round2 (q : Q) : Q := Qred (inject_Z (round_half_even (q * 100)) / 100)%Q.

(** [float(p) * 100] *)
Definition percent (p : Q) : Q := (p * 100)%Q.

(** [np.argmax]: position of the first maximum of a non-empty array. *)
Fixpoint argmax_from (best : nat) (bv : Q) (i : nat) (l : list Q) : nat :=
  match l with
  | [] => best
  | x :: rest =>
      if Qle_bool x bv then argmax_from best bv (S i) rest
      else argmax_from i x (S i) rest
  end.

Definition np_argmax (l : list Q) : result nat :=
  match l with
  | [] => inl (Exn ValueError "attempt to get argmax of an empty sequence")
  | x :: rest => inr (argmax_from 0 x 1 rest)
  end.

(** ** Artifacts, globals and the world *)

(** One row of numeric input as the models receive it. *)
Definition row : Type := list pyval.

(** [xgboost.XGBClassifier]; [xgb_predict x] is [model.predict(x)[0]] and
    [xgb_predict_proba x] is [model.predict_proba(x)[0]]. *)
Record XGBClassifier : Type := {
  xgb_predict : row -> result nat;
  xgb_predict_proba : row -> result (list Q)
}.

(** A keras model; [keras_predict x] is [model.predict(x)[0]] for the array
    built from the JSON value [x]. *)
Record KerasModel : Type := { keras_predict : pyval -> result (list Q) }.

(** The fitted scaler. *)
Record Scaler : Type := { transform : row -> result row }.

(** [sklearn.preprocessing.LabelEncoder] *)
Record LabelEncoder : Type := { classes_ : list string }.

(** [XGBClassifier()] as the constructor returns it, before [load_model] is
    called on it: it has no booster and its methods refuse to predict
    (sklearn's [NotFittedError], a [ValueError]). *)
Definition not_fitted : exn := Exn ValueError "need to call fit or load_model beforehand".

Definition unfitted_classifier : XGBClassifier :=
  {| xgb_predict := fun _ => inl not_fitted;
     xgb_predict_proba := fun _ => inl not_fitted |}.

(** The module-level globals of [complete-backend-api.py] (lines 21-25). *)
Record Registry : Type := {
  xgb_model : option XGBClassifier;
  cnn_model : option KerasModel;
  scaler : option Scaler;
  label_encoder : option LabelEncoder;
  feature_names : option (list string)
}.

(** Calls into pandas, scikit-learn, xgboost and keras, in program order. *)
Inductive event : Type :=
| EvDataFrame (x : pyval)
| EvTransform (x : row)
| EvPredict (x : row)
| EvPredictProba (x : row)
| EvKerasPredict (x : pyval)
| EvLoad (path : string).

Definition is_inference (e : event) : bool :=
  match e with
  | EvPredict _ | EvPredictProba _ | EvKerasPredict _ => true
  | _ => false
  end.

Record world : Type := World {
  globals : Registry;
  clock : nat;
  calls : list event
}.

(** ** The monad of handlers *)

Definition M (A : Type) : Type := world -> result A * world.

Definition ret {A} (a : A) : M A := fun w => (inr a, w).

Definition bind {A B} (m : M A) (k : A -> M B) : M B :=
  fun w =>
    match m w with
    | (inl e, w') => (inl e, w')
    | (inr a, w') => k a w'
    end.

Definition raise {A} (e : exn) : M A := fun w => (inl e, w).

Definition lift {A} (r : result A) : M A := fun w => (r, w).

(** [try: m except Exception as e: h e] *)
Definition try_except {A} (m : M A) (h : exn -> M A) : M A :=
  fun w =>
    match m w with
    | (inl e, w') => h e w'
    | (inr a, w') => (inr a, w')
    end.

Declare Scope handler_scope.
Delimit Scope handler_scope with handler.
Notation "x <- m ;; k" := (bind m (fun x => k))
  (at level 100, m at next level, right associativity) : handler_scope.
Notation "m ;;; k" := (bind m (fun _ => k))
  (at level 100, right associativity) : handler_scope.

Definition emit (e : event) : M unit :=
  fun w => (inr tt, World (globals w) (clock w) (calls w ++ [e])).

Definition global {A} (f : Registry -> A) : M A :=
  fun w => (inr (f (globals w)), w).

Definition assign (f : Registry -> Registry) : M unit :=
  fun w => (inr tt, World (f (globals w)) (clock w) (calls w)).

(** [datetime.now()]: reads the clock, which moves on. *)
Definition datetime_now : M nat :=
  fun w => (inr (clock w), World (globals w) (S (clock w)) (calls w)).

(** A call into a library: logged, then its outcome. *)
Definition call {A} (e : event) (r : result A) : M A :=
  bind (emit e) (fun _ => lift r).

(** ** Data frames and responses *)

(** A column label: a key of the request, or a position when the row was
    not a dict. *)
Inductive column : Type := ColName (s : string) | ColPos (n : nat).

(** A one-row [pandas.DataFrame]. *)
Record DataFrame : Type := { columns : list column; values : row }.

(** [pd.DataFrame([x])] *)
Definition pd_DataFrame (x : pyval) : DataFrame :=
  match x with
  | PDict d => {| columns := ColName <$> keys d; values := d.*2 |}
  | PList l => {| columns := ColPos <$> seq 0 (length l); values := l |}
  | _ => {| columns := [ColPos 0]; values := [x] |}
  end.

Definition column_name (c : column) : option string :=
  match c with ColName s => Some s | ColPos _ => None end.

(** The string labels among [df.columns]. *)
Definition column_names (df : DataFrame) : list string :=
  omap column_name (columns df).

Fixpoint cell (k : string) (cs : list column) (vs : row) : option pyval :=
  match cs, vs with
  | ColName s :: cs', v :: vs' => if String.eqb k s then Some v else cell k cs' vs'
  | _ :: cs', _ :: vs' => cell k cs' vs'
  | _, _ => None
  end.

Definition quote (s : string) : string := "'" ++ s ++ "'".

Definition not_in_index (missing : list string) : exn :=
  Exn KeyError ("[" ++ String.concat ", " (quote <$> missing) ++ "] not in index").

(** [df[names]]: the columns [names], in that order; a [KeyError] names the
    labels that are not columns. *)
Definition df_select (names : list string) (df : DataFrame) : result DataFrame :=
  match filter (λ k, k ∉ column_names df) names with
  | [] => inr {| columns := ColName <$> names;
                 values := omap (λ k, cell k (columns df) (values df)) names |}
  | missing => inl (not_in_index missing)
  end.

(** The JSON bodies the handlers produce, and a response with its status. *)
Inductive response : Type :=
| Response (status : nat) (json : body)
with body : Type :=
| ErrorBody (error : string)
| MissingBody (error : string) (missing : list string)
| PredictionBody (classification : string) (confidence : Q)
    (probabilities : list (string * Q)) (model_used : string) (timestamp : nat)
| BatchBody (predictions : list response) (total : nat)
    (model_used : string) (timestamp : nat)
| VerdictBody (model_used : string) (prediction : string) (probability : option Q).

Definition status_of (r : response) : nat := let 'Response s _ := r in s.
Definition json_of (r : response) : body := let 'Response _ j := r in j.

Definition classification_of (r : response) : option string :=
  match json_of r with PredictionBody c _ _ _ _ => Some c | _ => None end.

Definition confidence_of (r : response) : option Q :=
  match json_of r with PredictionBody _ c _ _ _ => Some c | _ => None end.

Definition error_of (r : response) : option string :=
  match json_of r with
  | ErrorBody e | MissingBody e _ => Some e
  | _ => None
  end.

(** [jsonify(body)] and [jsonify(body), status] *)
Definition jsonify (j : body) : response := Response 200 j.
Definition jsonify_status (j : body) (s : nat) : response := Response s j.

(** [@app.errorhandler(500)] (lines 382-384): what Flask answers when a view
    lets an exception escape. *)
Definition internal_error : response :=
  jsonify_status (ErrorBody "Internal server error") 500.

(** Running a view function on a world. *)
Definition serve (view : M response) (w : world) : response * world :=
  match view w with
  | (inr r, w') => (r, w')
  | (inl _, w') => (internal_error, w')
  end.

(** ** Assignments to the globals *)

Definition empty_registry : Registry :=
  {| xgb_model := None; cnn_model := None; scaler := None;
     label_encoder := None; feature_names := None |}.

Definition set_xgb_model (v : option XGBClassifier) (g : Registry) : Registry :=
  {| xgb_model := v; cnn_model := cnn_model g; scaler := scaler g;
     label_encoder := label_encoder g; feature_names := feature_names g |}.
Definition set_cnn_model (v : option KerasModel) (g : Registry) : Registry :=
  {| xgb_model := xgb_model g; cnn_model := v; scaler := scaler g;
     label_encoder := label_encoder g; feature_names := feature_names g |}.
Definition set_scaler (v : option Scaler) (g : Registry) : Registry :=
  {| xgb_model := xgb_model g; cnn_model := cnn_model g; scaler := v;
     label_encoder := label_encoder g; feature_names := feature_names g |}.
Definition set_label_encoder (v : option LabelEncoder) (g : Registry) : Registry :=
  {| xgb_model := xgb_model g; cnn_model := cnn_model g; scaler := scaler g;
     label_encoder := v; feature_names := feature_names g |}.
Definition set_feature_names (v : option (list string)) (g : Registry) : Registry :=
  {| xgb_model := xgb_model g; cnn_model := cnn_model g; scaler := scaler g;
     label_encoder := label_encoder g; feature_names := v |}.

(** The world at import time: every global is [None]. *)
Definition initial_world : world := World empty_registry 0 [].

(** ** Files on disk *)

(** What a path holds: nothing, an artifact that loads, or a file whose
    loader raises. *)
Inductive file (A : Type) : Type :=
| Missing
| Stored (a : A)
| Unreadable (e : exn).
Arguments Missing {A}.
Arguments Stored {A} a.
Arguments Unreadable {A} e.

(** [os.path.exists] *)
Definition exists_ {A} (f : file A) : bool :=
  match f with Missing => false | _ => true end.

(** The loader called on an existing path. *)
Definition load {A} (path : string) (f : file A) : M A :=
  call (EvLoad path)
    match f with
    | Stored a => inr a
    | Unreadable e => inl e
    | Missing => inl (Exn RuntimeError ("No such file: " ++ path))
    end.

(** [xgb_model.load_model(path)] on an existing path. The classifier bound
    to [xgb_model] is loaded into in place: when the call returns the
    global holds the stored classifier, and when it raises the global holds
    [remains], what the failed call left of the object. What the methods of
    [remains] do is the library's affair, not this program's. *)
Definition load_model (path : string) (f : file XGBClassifier) (remains : XGBClassifier)
  : M unit :=
  try_except
    (m <- load path f;; assign (set_xgb_model (Some m)))%handler
    (fun e => assign (set_xgb_model (Some remains));;; raise e)%handler.

(** ** complete-backend-api.py *)

Module CompleteBackendApi.

Local Open Scope handler_scope.

Definition MODEL_DIR : string := "models".
Definition XGB_MODEL_PATH : string := "models/exoplanet_xgboost_model.json".
Definition CNN_MODEL_PATH_H5 : string := "models/exoplanet_cnn_model.h5".
Definition CNN_MODEL_PATH_KERAS : string := "models/best_model.h5".
Definition SCALER_PATH : string := "models/exoplanet_final_scaler.pkl".
Definition ENCODER_PATH : string := "models/exoplanet_final_label_encoder.pkl".
Definition FEATURES_PATH : string := "models/exoplanet_final_features.pkl".

(** The six paths read at startup, and what a failed [load_model] leaves
    of the classifier it was called on. *)
Record disk : Type := {
  xgb_file : file XGBClassifier;
  cnn_keras_file : file KerasModel;
  cnn_h5_file : file KerasModel;
  scaler_file : file Scaler;
  encoder_file : file LabelEncoder;
  features_file : file (list string);
  xgb_remains : XGBClassifier
}.

(** Lines 52-79: the body of the [try] of [load_models]. *)
Definition load_models_try (d : disk) : M unit :=
  (if exists_ (xgb_file d) then
     assign (set_xgb_model (Some unfitted_classifier));;;
     load_model XGB_MODEL_PATH (xgb_file d) (xgb_remains d)
   else ret tt);;;
  (if exists_ (cnn_keras_file d) then
     m <- load CNN_MODEL_PATH_KERAS (cnn_keras_file d);;
     assign (set_cnn_model (Some m))
   else if exists_ (cnn_h5_file d) then
     m <- load CNN_MODEL_PATH_H5 (cnn_h5_file d);;
     assign (set_cnn_model (Some m))
   else ret tt);;;
  (if exists_ (scaler_file d) then
     s <- load SCALER_PATH (scaler_file d);;
     assign (set_scaler (Some s))
   else ret tt);;;
  (if exists_ (encoder_file d) then
     e <- load ENCODER_PATH (encoder_file d);;
     assign (set_label_encoder (Some e))
   else ret tt);;;
  (if exists_ (features_file d) then
     f <- load FEATURES_PATH (features_file d);;
     assign (set_feature_names (Some f))
   else ret tt).

(** Lines 47-84: one [try] around every load; the handler prints. *)
Definition load_models (d : disk) : M unit :=
  try_except (load_models_try d) (fun _ => ret tt).

(** The world after line 87. *)
Definition startup (d : disk) : world := snd (load_models d initial_world).

(** [bool(feature_names)] *)
Definition names_loaded (fn : option (list string)) : list string :=
  match fn with Some l => l | None => [] end.

(** [set(feature_names) - set(df.columns)] *)
Definition missing_features (fn : list string) (df : DataFrame) : gset string :=
  list_to_set fn ∖ list_to_set (column_names df).

(** [probabilities[prediction]] *)
Definition index_proba (probabilities : list Q) (prediction : nat) : result Q :=
  match probabilities !! prediction with
  | Some p => inr p
  | None =>
      inl (Exn IndexError ("index " ++ pretty prediction ++
             " is out of bounds for axis 0 with size " ++ pretty (length probabilities)))
  end.

(** [label_encoder.inverse_transform([prediction])[0]] *)
Definition inverse_transform (le : LabelEncoder) (prediction : nat) : result string :=
  match classes_ le !! prediction with
  | Some c => inr c
  | None =>
      inl (Exn ValueError ("y contains previously unseen labels: [" ++ pretty prediction ++ "]"))
  end.

(** The key of entry [i] of the [probabilities] mapping (line 217). *)
Definition proba_key (le : option LabelEncoder) (i : nat) : result string :=
  match le with
  | Some e =>
      match classes_ e !! i with
      | Some c => inr c
      | None =>
          inl (Exn IndexError ("index " ++ pretty i ++
                 " is out of bounds for axis 0 with size " ++ pretty (length (classes_ e))))
      end
  | None => inr (pretty i)
  end.

(** Lines 216-219: the dict comprehension over [enumerate(probabilities)]. *)
Fixpoint proba_table (le : option LabelEncoder) (i : nat) (ps : list Q)
  : result (list (string * Q)) :=
  match ps with
  | [] => inr []
  | p :: rest =>
      match proba_key le i with
      | inl e => inl e
      | inr k =>
          match proba_table le (S i) rest with
          | inl e => inl e
          | inr t => inr ((k, round2 (percent p)) :: t)
          end
      end
  end.

(** What the model branches hand to the rest of the view: a response
    returned on the spot, or the prediction and its probabilities. *)
Definition outcome : Type := (response + nat * list Q)%type.

(** Lines 156-179: the tabular branch. *)
Definition xgboost_branch (df : DataFrame) : M outcome :=
  xgb <- global xgb_model;;
  match xgb with
  | None => ret (inl (jsonify_status (ErrorBody "XGBoost model not loaded") 500))
  | Some model =>
      fn <- global feature_names;;
      checked <-
        match names_loaded fn with
        | [] => ret (inr df)
        | names =>
            let missing := missing_features names df in
            if decide (missing = ∅) then
              df' <- lift (df_select names df);; ret (inr df')
            else
              ret (inl (jsonify_status
                          (MissingBody "Missing required features" (elements missing)) 400))
        end;;
      match checked with
      | inl early => ret (inl early)
      | inr df =>
          sc <- global scaler;;
          df_scaled <-
            match sc with
            | Some s => call (EvTransform (values df)) (transform s (values df))
            | None => ret (values df)
            end;;
          prediction <- call (EvPredict df_scaled) (xgb_predict model df_scaled);;
          probabilities <- call (EvPredictProba df_scaled) (xgb_predict_proba model df_scaled);;
          ret (inr (prediction, probabilities))
      end
  end.

(** Lines 182-199: the time-series branch. [np.array(...).reshape(1, -1, 1)]
    is part of what [keras_predict] stands for. *)
Definition cnn_branch (features : pyval) : M outcome :=
  cnn <- global cnn_model;;
  match cnn with
  | None => ret (inl (jsonify_status (ErrorBody "CNN model not loaded") 500))
  | Some model =>
      present <- lift (py_contains "flux_values" features);;
      if negb present then
        ret (inl (jsonify_status
                    (ErrorBody "CNN requires flux_values array (time series data)") 400))
      else
        flux <- lift (py_getitem features "flux_values");;
        probabilities <- call (EvKerasPredict flux) (keras_predict model flux);;
        prediction <- lift (np_argmax probabilities);;
        ret (inr (prediction, probabilities))
  end.

(** Lines 204-224: label, confidence and the response. *)
Definition respond (model_type : string) (prediction : nat) (probabilities : list Q)
  : M response :=
  le <- global label_encoder;;
  predicted_label <-
    match le with
    | Some e => lift (inverse_transform e prediction)
    | None => ret (pretty prediction)
    end;;
  p <- lift (index_proba probabilities prediction);;
  let confidence := percent p in
  table <- lift (proba_table le 0 probabilities);;
  now <- datetime_now;;
  ret (jsonify (PredictionBody predicted_label (round2 confidence) table model_type now)).

(** Lines 141-224: the body of the [try] of [predict_single]. *)
Definition predict_single_try (data : pyval) : M response :=
  if negb (truthy data) then
    ret (jsonify_status (ErrorBody "No data provided") 400)
  else
    m <- lift (py_get data "model" (PStr "xgboost"));;
    model_type <- lift (py_lower m);;
    features <- lift (py_get data "features" (PDict []));;
    if negb (truthy features) then
      ret (jsonify_status (ErrorBody "No features provided") 400)
    else
      df <- call (EvDataFrame features) (inr (pd_DataFrame features));;
      r <- (if String.eqb model_type "xgboost" then xgboost_branch df
            else if String.eqb model_type "cnn" then cnn_branch features
            else ret (inl (jsonify_status
                             (ErrorBody ("Invalid model type: " ++ model_type)) 400)));;
      match r with
      | inl early => ret early
      | inr (prediction, probabilities) => respond model_type prediction probabilities
      end.

(** Lines 125-227: [POST /api/predict]; [data] is [request.get_json()]. *)
Definition predict_single (data : pyval) : M response :=
  try_except (predict_single_try data)
    (fun e => ret (jsonify_status (ErrorBody (exn_msg e)) 500)).

(** A view function object as [predict_batch] uses it: whether it carries
    a [__wrapped__] attribute. When it does, the attribute is the function
    of line 126, which has no parameters. *)
Record view_function : Type := { has_wrapped : bool }.

(** [app.route] registers the function and hands it back as it is, and the
    [def] of line 126 sets no [__wrapped__]. *)
Definition predict_single_view : view_function := {| has_wrapped := false |}.

(** Line 260: [view.__wrapped__(obs, model_type)] *)
Definition call_wrapped (view : view_function) (obs : pyval) (model_type : string)
  : M response :=
  if has_wrapped view then
    raise (Exn TypeError "predict_single() takes 0 positional arguments but 2 were given")
  else
    raise (Exn AttributeError "'function' object has no attribute '__wrapped__'").

(** Lines 258-261: the loop over the observations. *)
Fixpoint each_observation (view : view_function) (model_type : string)
  (observations : list pyval) (results : list response) : M (list response) :=
  match observations with
  | [] => ret results
  | obs :: rest =>
      pred_response <- call_wrapped view obs model_type;;
      each_observation view model_type rest (results ++ [pred_response])
  end.

(** Lines 245-268: the body of the [try] of [predict_batch]. *)
Definition predict_batch_try (view : view_function) (data : pyval) : M response :=
  if negb (truthy data) then
    ret (jsonify_status (ErrorBody "No data provided") 400)
  else
    m <- lift (py_get data "model" (PStr "xgboost"));;
    model_type <- lift (py_lower m);;
    observations <- lift (py_get data "data" (PList []));;
    if negb (truthy observations) then
      ret (jsonify_status (ErrorBody "No observations provided") 400)
    else
      items <- lift (py_iter observations);;
      results <- each_observation view model_type items [];;
      now <- datetime_now;;
      ret (jsonify (BatchBody results (length results) model_type now)).

(** Lines 230-271: [POST /api/predict/batch]. *)
Definition predict_batch (data : pyval) : M response :=
  try_except (predict_batch_try predict_single_view data)
    (fun e => ret (jsonify_status (ErrorBody (exn_msg e)) 500)).

End CompleteBackendApi.

(** ** backend2.py *)

Module Backend2.

Local Open Scope handler_scope.

(** Lines 16-19. *)
Definition XGB_FEATURE_ORDER : list string :=
  ["koi_period"; "koi_duration"; "koi_depth"; "koi_prad"; "koi_teq";
   "koi_insol"; "koi_steff"; "koi_srad"; "koi_model_snr"].

(** The globals [cnn_model], [xgb_model] and [xgb_scaler] of lines 23-25 are
    the fields [cnn_model], [xgb_model] and [scaler] of the registry. *)
Definition xgb_scaler : Registry -> option Scaler := scaler.

Record disk : Type := {
  cnn_file : file KerasModel;
  xgb_file : file XGBClassifier;
  scaler_file : file Scaler;
  xgb_remains : XGBClassifier
}.

(** Lines 28-36: the CNN model, in a [try] of its own. *)
Definition load_cnn (d : disk) : M unit :=
  try_except
    (if exists_ (cnn_file d) then
       m <- load "best_model.keras" (cnn_file d);;
       assign (set_cnn_model (Some m))
     else ret tt)
    (fun _ => ret tt).

(** Lines 39-54: the XGBoost model and its scaler, in one [try]. *)
Definition load_xgb (d : disk) : M unit :=
  try_except
    ((if exists_ (xgb_file d) then
        assign (set_xgb_model (Some unfitted_classifier));;;
        load_model "exoplanet_xgboost_model.json" (xgb_file d) (xgb_remains d)
      else ret tt);;;
     (if exists_ (scaler_file d) then
        s <- load "exoplanet.pkl" (scaler_file d);;
        assign (set_scaler (Some s))
      else ret tt))
    (fun _ => ret tt).

Definition startup (d : disk) : world :=
  snd ((load_cnn d;;; load_xgb d) initial_world).

(** [cnn_model.predict(x)[0][0]] *)
Definition first_output (probabilities : list Q) : result Q :=
  match probabilities with
  | p :: _ => inr p
  | [] => inl (Exn IndexError "index 0 is out of bounds for axis 0 with size 0")
  end.

(** [probability > 0.5] *)
Definition above_half (p : Q) : bool := negb (Qle_bool p (1 # 2)).

(** Lines 69-90: [POST /predict/flux]. *)
Definition predict_flux (data : pyval) : M response :=
  cnn <- global cnn_model;;
  match cnn with
  | None => ret (jsonify_status (ErrorBody "CNN model is not loaded.") 500)
  | Some model =>
      try_except
        (flux_data <- lift (py_getitem data "flux_data");;
         n <- lift (py_len flux_data);;
         if negb (Nat.eqb n 3197) then
           ret (jsonify_status
                  (ErrorBody ("Invalid input: Expected 3197 flux values, got "
                              ++ pretty n ++ ".")) 400)
         else
           out <- call (EvKerasPredict flux_data) (keras_predict model flux_data);;
           probability <- lift (first_output out);;
           let prediction := if above_half probability then 1%nat else 0%nat in
           ret (jsonify (VerdictBody "CNN Flux Model"
                           (if Nat.eqb prediction 1 then "Exoplanet" else "Not an Exoplanet")
                           (Some probability))))
        (fun e => ret (jsonify_status (ErrorBody (exn_msg e)) 400))
  end.

(** Lines 120-138: [POST /predict/features]. *)
Definition predict_features (data : pyval) : M response :=
  xgb <- global xgb_model;;
  sc <- global xgb_scaler;;
  match xgb, sc with
  | Some model, Some s =>
      try_except
        (df <- call (EvDataFrame data) (inr (pd_DataFrame data));;
         input_df <- lift (df_select XGB_FEATURE_ORDER df);;
         features_scaled <- call (EvTransform (values input_df))
                                 (transform s (values input_df));;
         prediction <- call (EvPredict features_scaled) (xgb_predict model features_scaled);;
         ret (jsonify (VerdictBody "XGBoost Feature Model"
                         (if Nat.eqb prediction 1 then "Exoplanet" else "Not an Exoplanet")
                         None)))
        (fun e =>
           match exn_kind_of e with
           | KeyError =>
               ret (jsonify_status
                      (ErrorBody ("Missing feature in request: " ++ exn_msg e)) 400)
           | _ => ret (jsonify_status (ErrorBody (exn_msg e)) 400)
           end)
  | _, _ => ret (jsonify_status (ErrorBody "XGBoost model or scaler is not loaded.") 500)
  end.

End Backend2.

(** ** Sample artifacts and requests *)

Module Samples.

Import CompleteBackendApi.

Definition sample_xgb : XGBClassifier :=
  {| xgb_predict := fun _ => inr 1%nat;
     xgb_predict_proba := fun _ => inr [1 # 10; 7 # 10; 2 # 10]%Q |}.

Definition sample_cnn : KerasModel :=
  {| keras_predict := fun _ => inr [1 # 4; 3 # 4]%Q |}.

Definition sample_scaler : Scaler := {| transform := fun x => inr x |}.

Definition sample_encoder : LabelEncoder :=
  {| classes_ := ["CANDIDATE"; "CONFIRMED"; "FALSE POSITIVE"] |}.

Definition sample_features : list string :=
  ["koi_period"; "koi_duration"; "koi_depth"; "koi_prad"; "koi_teq";
   "koi_insol"; "koi_steff"; "koi_srad"].

Definition full_registry : Registry :=
  {| xgb_model := Some sample_xgb; cnn_model := Some sample_cnn;
     scaler := Some sample_scaler; label_encoder := Some sample_encoder;
     feature_names := Some sample_features |}.

Definition full_world : world := World full_registry 0 [].

(** The Kepler-22b observation of the test suite and of [/api/examples]. *)
Definition kepler22b : pyval :=
  PDict [("koi_period", PFloat (2899 # 10)); ("koi_duration", PFloat (54 # 10));
         ("koi_depth", PFloat 492); ("koi_prad", PFloat (24 # 10));
         ("koi_teq", PFloat 262); ("koi_insol", PFloat (142 # 100));
         ("koi_steff", PFloat 5518); ("koi_srad", PFloat (98 # 100))].

(** Test 6 of the test suite: two of the eight features. *)
Definition two_features : pyval :=
  PDict [("koi_period", PFloat (105 # 10)); ("koi_duration", PFloat (32 # 10))].

Definition single_request (model : string) (features : pyval) : pyval :=
  PDict [("model", PStr model); ("features", features)].

Definition batch_request (model : string) (observations : list pyval) : pyval :=
  PDict [("model", PStr model); ("data", PList observations)].

Definition flux_of_length (n : nat) : pyval := PList (replicate n (PFloat 0)).

Definition later_world : world :=
  World full_registry 17 [EvDataFrame kepler22b; EvPredict []].


(** A classifier whose [predict] raises. *)
Definition broken_xgb : XGBClassifier :=
  {| xgb_predict := fun _ => inl (Exn ValueError "Feature shape mismatch, expected: 9, got 8");
     xgb_predict_proba := fun _ => inr [1 # 2; 1 # 2]%Q |}.

Definition broken_world : world := World (set_xgb_model (Some broken_xgb) full_registry) 0 [].

(** A network that accepts 3197 readings only, as a keras model with a
    fixed input shape does. *)
Definition strict_cnn : KerasModel :=
  {| keras_predict := fun x =>
       match py_len x with
       | inr n => if Nat.eqb n 3197 then inr [1 # 4; 3 # 4]%Q
                  else inl (Exn ValueError "Input 0 of layer is incompatible with the layer")
       | inl e => inl e
       end |}.

Definition strict_world : world := World (set_cnn_model (Some strict_cnn) full_registry) 0 [].

Definition short_flux_request : pyval :=
  single_request "cnn" (PDict [("flux_values", flux_of_length 3196)]).

(** A classifier as a failed [load_model] may leave it: its methods raise. *)
Definition sample_remains : XGBClassifier :=
  {| xgb_predict := fun _ => inl (Exn ValueError "the booster holds no model");
     xgb_predict_proba := fun _ => inl (Exn ValueError "the booster holds no model") |}.

(** Every artifact on disk but the scaler. *)
Definition disk_without_scaler : disk :=
  {| xgb_file := Stored sample_xgb; cnn_keras_file := Missing;
     cnn_h5_file := Stored sample_cnn; scaler_file := Missing;
     encoder_file := Stored sample_encoder; features_file := Stored sample_features;
     xgb_remains := sample_remains |}.

(** A model file that xgboost cannot parse, next to sound artifacts. *)
Definition disk_with_corrupt_xgb : disk :=
  {| xgb_file := Unreadable (Exn ValueError "Invalid JSON model file");
     cnn_keras_file := Stored sample_cnn; cnn_h5_file := Missing;
     scaler_file := Stored sample_scaler;
     encoder_file := Stored sample_encoder; features_file := Stored sample_features;
     xgb_remains := sample_remains |}.

(** A network whose one output is above 1. *)
Definition overconfident_cnn : KerasModel := {| keras_predict := fun _ => inr [3 # 2]%Q |}.

Definition overconfident_world : world :=
  World (set_cnn_model (Some overconfident_cnn) empty_registry) 0 [].

End Samples.

(** * The other endpoints *)

(** The answer of a view that hands a dict to [jsonify]: the status and the
    JSON value of the body. *)
Inductive reply : Type := Reply (status : nat) (payload : pyval).

Definition reply_status (r : reply) : nat := let 'Reply s _ := r in s.
Definition reply_payload (r : reply) : pyval := let 'Reply _ p := r in p.

(** [jsonify({'error': msg}), status] *)
Definition error_reply (msg : string) (s : nat) : reply :=
  Reply s (PDict [("error", PStr msg)]).

(** [x is not None] *)
Definition is_not_none {A} (x : option A) : pyval :=
  PBool (match x with Some _ => true | None => false end).

Definition py_strings (l : list string) : pyval := PList (PStr <$> l).

(** A time stamp in a body; the clock reading stands for the text
    [isoformat()] renders. *)
Definition py_time (t : nat) : pyval := PInt (Z.of_nat t).

(** The entry of a JSON object under a key. *)
Definition field (k : string) (v : pyval) : option pyval :=
  match v with PDict d => assoc k d | _ => None end.

(** ** complete-backend-api.py: health, model information, importances *)

Module CompleteBackendApiViews.

Import CompleteBackendApi.

Local Open Scope handler_scope.

(** Lines 90-99: [GET /health]. *)
Definition health_check : M reply :=
  xgb <- global xgb_model;;
  cnn <- global cnn_model;;
  sc <- global scaler;;
  now <- datetime_now;;
  ret (Reply 200
         (PDict [("status", PStr "healthy");
                 ("xgb_loaded", is_not_none xgb);
                 ("cnn_loaded", is_not_none cnn);
                 ("scaler_loaded", is_not_none sc);
                 ("timestamp", py_time now)])).

(** [label_encoder.classes_.tolist() if label_encoder else []] *)
Definition classes_or_empty (le : option LabelEncoder) : list string :=
  match le with Some e => classes_ e | None => [] end.

(** Lines 102-122: [GET /api/models/info]. *)
Definition model_info : M reply :=
  xgb <- global xgb_model;;
  cnn <- global cnn_model;;
  fn <- global feature_names;;
  le <- global label_encoder;;
  ret (Reply 200
         (PDict [("models",
                  PDict [("xgboost",
                          PDict [("available", is_not_none xgb);
                                 ("type", PStr "Gradient Boosting");
                                 ("accuracy", PStr "82-88%");
                                 ("use_case", PStr "Tabular features")]);
                         ("cnn",
                          PDict [("available", is_not_none cnn);
                                 ("type", PStr "Convolutional Neural Network");
                                 ("accuracy", PStr "90-99%");
                                 ("use_case", PStr "Light curve time series")])]);
                 ("features", py_strings (names_loaded fn));
                 ("classes", py_strings (classes_or_empty le))])).

(** [sorted(items, key=lambda x: x[1], reverse=True)]: the sort is stable,
    so an item goes in front of the first item whose importance is not
    larger than its own. *)
Fixpoint insert_by_importance (x : string * Q) (l : list (string * Q))
  : list (string * Q) :=
  match l with
  | [] => [x]
  | y :: rest =>
      if Qle_bool y.2 x.2 then x :: y :: rest
      else y :: insert_by_importance x rest
  end.

Definition sorted_by_importance (items : list (string * Q)) : list (string * Q) :=
  foldr insert_by_importance [] items.

(** [d[k] = v] on the items of a dict: a key already there keeps its place. *)
Fixpoint dict_set (k : string) (v : Q) (d : list (string * Q)) : list (string * Q) :=
  match d with
  | [] => [(k, v)]
  | (k', v') :: rest =>
      if String.eqb k k' then (k', v) :: rest else (k', v') :: dict_set k v rest
  end.

(** [{feat: float(imp) for feat, imp in items}] *)
Definition dict_of_items (items : list (string * Q)) : list (string * Q) :=
  fold_left (fun d kv => dict_set kv.1 kv.2 d) items [].

(** [[f'feature_{i}' for i in range(n)]] *)
Definition default_feature_names (n : nat) : list string :=
  (fun i => "feature_" ++ pretty i) <$> seq 0 n.

Definition py_importances (d : list (string * Q)) : pyval :=
  PDict (prod_map id PFloat <$> d).

Section FeatureImportance.

(** The attribute [feature_importances_] of a classifier, which the record
    [XGBClassifier] does not carry; reading it may raise. *)
Variable feature_importances_ : XGBClassifier -> result (list Q).

(** Lines 314-329: the body of the [try]; the dict of line 317 comes with
    the reply. *)
Definition feature_importance_try (model : XGBClassifier)
  : M (list (string * Q) * reply) :=
  importances <- lift (feature_importances_ model);;
  fn <- global feature_names;;
  let features :=
    match names_loaded fn with
    | [] => default_feature_names (length importances)
    | names => names
    end in
  let importance_dict :=
    dict_of_items (sorted_by_importance (zip features importances)) in
  ret (importance_dict,
       Reply 200
         (PDict [("importance", py_importances importance_dict);
                 ("top_5", py_importances (take 5 importance_dict))])).

(** Lines 306-332: [GET /api/features/importance]. *)
Definition feature_importance : M reply :=
  xgb <- global xgb_model;;
  match xgb with
  | None => ret (error_reply "XGBoost model not loaded" 500)
  | Some model =>
      try_except
        (r <- feature_importance_try model;; ret r.2)
        (fun e => ret (error_reply (exn_msg e) 500))
  end.

End FeatureImportance.

End CompleteBackendApiViews.

(** ** helli.py *)

Module Helli.

Local Open Scope handler_scope.

(** [xgboost.Booster]; [booster_predict x] is
    [model.predict(xgb.DMatrix(x))]. *)
Record Booster : Type := { booster_predict : row -> result (list Q) }.

(** Line 21. *)
Definition required_features : list string := ["feature1"; "feature2"; "feature3"].

(** [all(feature in data for feature in required_features)]: the tests run
    in order and stop at the first that fails. *)
Fixpoint all_in (names : list string) (data : pyval) : result bool :=
  match names with
  | [] => inr true
  | k :: rest =>
      match py_contains k data with
      | inl e => inl e
      | inr false => inr false
      | inr true => all_in rest data
      end
  end.

(** Lines 16-41: [POST /predict]; [model] and [scaler] are the globals of
    lines 11-13. *)
Definition predict (model : Booster) (scaler : Scaler) (data : pyval) : M reply :=
  try_except
    (present <- lift (all_in required_features data);;
     if negb present then
       ret (error_reply "Missing feature in request" 400)
     else
       f1 <- lift (py_getitem data "feature1");;
       f2 <- lift (py_getitem data "feature2");;
       f3 <- lift (py_getitem data "feature3");;
       let features := [f1; f2; f3] in
       features_scaled <- call (EvTransform features) (transform scaler features);;
       prediction <- call (EvPredict features_scaled)
                          (booster_predict model features_scaled);;
       ret (Reply 200 (PDict [("prediction", PList (PFloat <$> prediction))])))
    (fun e => ret (error_reply (exn_msg e) 500)).

End Helli.

(** ** backend.py *)

Module Backend.

Local Open Scope handler_scope.

(** Lines 24, 34 and 35: the three globals are bound to the paths. *)
Definition cnn_model : pyval :=
  PStr "C:\NASA SPacechhhalnge\backend\model\best_model.keras".
Definition xgb_model : pyval :=
  PStr "C:\NASA SPacechhhalnge\backend\model\exoplanet_xgboost_model.json".
Definition xgb_scaler : pyval :=
  PStr "C:\NASA SPacechhhalnge\backend\model\exoplanet.pkl".

(** Lines 38-42. *)
Definition XGB_FEATURE_ORDER : list string :=
  ["koi_period"; "koi_duration"; "koi_depth"; "koi_prad"; "koi_teq";
   "koi_insol"; "koi_steff"; "koi_srad"; "koi_model_snr"].

(** [v is None] *)
Definition is_none (v : pyval) : bool :=
  match v with PNone => true | _ => false end.

(** [v.name(...)] on a JSON value: none of them has a method of the names
    used here ([predict], [transform]). *)
Definition call_method {A} (v : pyval) (name : string) : result A :=
  inl (no_attribute v name).

(** [str(shape)] of a tuple of dimensions. *)
Definition render_shape (shape : list nat) : string :=
  match shape with
  | [] => "()"
  | [n] => "(" ++ pretty n ++ ",)"
  | _ => "(" ++ String.concat ", " (pretty <$> shape) ++ ")"
  end.

Section PredictFlux.

(** [np.array(v).shape], which may raise. *)
Variable np_shape : pyval -> result (list nat).

(** Lines 58-96: [POST /predict/flux]. Only the last step is in a [try]. *)
Definition predict_flux (data : pyval) : M reply :=
  if is_none cnn_model then
    ret (error_reply "CNN model is not loaded." 500)
  else
    present <- lift (py_contains "flux_data" data);;
    if negb present then
      ret (error_reply "Request must contain 'flux_data' key." 400)
    else
      flux <- lift (py_getitem data "flux_data");;
      shape <- lift (np_shape flux);;
      if match shape with [n] => negb (Nat.eqb n 3197) | _ => true end then
        ret (error_reply ("Expected a 1D array of 3197 flux values, but got shape "
                          ++ render_shape shape) 400)
      else
        try_except
          (out <- lift (call_method cnn_model "predict" : result (list Q));;
           probability <- lift (Backend2.first_output out);;
           let prediction :=
             if Backend2.above_half probability then "Exoplanet" else "Not Exoplanet" in
           ret (Reply 200
                  (PDict [("prediction", PStr prediction);
                          ("probability", PFloat probability);
                          ("model_used", PStr "CNN (Flux Data)")])))
          (fun e => ret (error_reply ("Error during prediction: " ++ exn_msg e) 500)).

End PredictFlux.

(** Lines 100-134: [POST /predict/features]. *)
Definition predict_features (data : pyval) : M reply :=
  if is_none xgb_model || is_none xgb_scaler then
    ret (error_reply "XGBoost model or scaler is not loaded." 500)
  else
    pre <- try_except
             (df <- call (EvDataFrame data) (inr (pd_DataFrame data));;
              input_df <- lift (df_select XGB_FEATURE_ORDER df);;
              scaled <- lift (call_method xgb_scaler "transform" : result row);;
              ret (inr scaled))
             (fun e =>
                match exn_kind_of e with
                | KeyError =>
                    ret (inl (error_reply ("Missing feature in request: " ++ exn_msg e) 400))
                | _ =>
                    ret (inl (error_reply ("Error during preprocessing: " ++ exn_msg e) 500))
                end);;
    match pre with
    | inl early => ret early
    | inr scaled_data =>
        try_except
          (code <- lift (call_method xgb_model "predict" : result nat);;
           let prediction := if Nat.eqb code 1 then "Exoplanet" else "Not Exoplanet" in
           ret (Reply 200
                  (PDict [("prediction", PStr prediction);
                          ("model_used", PStr "XGBoost (Tabular Features)")])))
          (fun e => ret (error_reply ("Error during prediction: " ++ exn_msg e) 500))
    end.

End Backend.

(** * Notions used in the statements *)

Import CompleteBackendApi Samples.

(** A model has these outputs on some input. *)
Definition xgb_outputs (g : Registry) (prediction : nat) (probabilities : list Q) : Prop :=
  exists model x,
    xgb_model g = Some model /\
    xgb_predict model x = inr prediction /\
    xgb_predict_proba model x = inr probabilities.

Definition cnn_outputs (g : Registry) (prediction : nat) (probabilities : list Q) : Prop :=
  exists model x,
    cnn_model g = Some model /\
    keras_predict model x = inr probabilities /\
    np_argmax probabilities = inr prediction.

(** The label the response carries for a class index. *)
Definition label_of (le : option LabelEncoder) (prediction : nat) (label : string) : Prop :=
  match le with
  | Some e => classes_ e !! prediction = Some label
  | None => label = pretty prediction
  end.

(** Model outputs that are probabilities. *)
Definition nonnegative (ps : list Q) : Prop := Forall (fun p => (0 <= p)%Q) ps.
Definition at_most_one (ps : list Q) : Prop := Forall (fun p => (p <= 1)%Q) ps.

(** [y] is [x] rounded to two decimals: a whole number of hundredths, a
    nearest one, and the even one of the two when [x] lies half-way. *)
Definition rounded_to_two_decimals (x y : Q) : Prop :=
  exists z : Z,
    (y == inject_Z z / 100)%Q /\
    (inject_Z z - (1 # 2) <= x * 100)%Q /\ (x * 100 <= inject_Z z + (1 # 2))%Q /\
    ((x * 100 == inject_Z z - (1 # 2))%Q \/ (x * 100 == inject_Z z + (1 # 2))%Q ->
     Z.even z = true).

(** A string of ASCII characters only. *)
Fixpoint is_ascii (s : string) : bool :=
  match s with
  | EmptyString => true
  | String c rest => (nat_of_ascii c <? 128)%nat && is_ascii rest
  end.

(** The mass of a vector; a distribution has mass one. *)
Definition total (ps : list Q) : Q := fold_right Qplus 0%Q ps.

(** Two outcomes agree up to [R] on the returned values. *)
Definition agree {A} (R : A -> A -> Prop) (r1 r2 : result A) : Prop :=
  match r1, r2 with
  | inr a, inr b => R a b
  | inl e1, inl e2 => e1 = e2
  | _, _ => False
  end.

(** A computation whose outcome, up to [R], depends on the world through
    the globals only, and which leaves the globals as they were. *)
Definition stable {A} (R : A -> A -> Prop) (m : M A) : Prop :=
  forall w1 w2, globals w1 = globals w2 ->
    agree R (m w1).1 (m w2).1 /\ globals (m w1).2 = globals w1.

(** Two responses that differ in their time stamp at most. *)
Definition same_answer (r1 r2 : response) : Prop :=
  status_of r1 = status_of r2 /\
  classification_of r1 = classification_of r2 /\
  confidence_of r1 = confidence_of r2 /\
  error_of r1 = error_of r2.

(** The handler of the [try] of [predict_single] (lines 226-227). *)
Definition on_exception (e : exn) : M response :=
  ret (jsonify_status (ErrorBody (exn_msg e)) 500).

(** The tabular path of [predict_single]: lines 153, 156-179 and 204-224. *)
Definition tabular_path (features : pyval) : M response :=
  try_except
    (bind (call (EvDataFrame features) (inr (pd_DataFrame features))) (fun df =>
     bind (xgboost_branch df) (fun r =>
     match r with
     | inl early => ret early
     | inr (prediction, probabilities) => respond "xgboost" prediction probabilities
     end)))
    on_exception.

(** The time-series path: lines 153, 182-199 and 204-224. *)
Definition sequence_path (features : pyval) : M response :=
  try_except
    (bind (call (EvDataFrame features) (inr (pd_DataFrame features))) (fun df =>
     bind (cnn_branch features) (fun r =>
     match r with
     | inl early => ret early
     | inr (prediction, probabilities) => respond "cnn" prediction probabilities
     end)))
    on_exception.

(** The [model] entry of the body is absent, or a string that reads [kind]
    once lower-cased. *)
Definition selects (kind : string) (d : list (string * pyval)) : Prop :=
  (kind = "xgboost" /\ assoc "model" d = None) \/
  (exists s, assoc "model" d = Some (PStr s) /\ lower s = kind).

(** The first call into scikit-learn or xgboost on a row [x]. *)
Definition first_numeric_call (sc : option Scaler) (x : row) : event :=
  match sc with Some _ => EvTransform x | None => EvPredict x end.

Definition is_missing_body (r : response) : bool :=
  match json_of r with MissingBody _ _ => true | _ => false end.

(** The values of the columns [names], in that order. *)
Definition selected (names : list string) (df : DataFrame) : row :=
  omap (λ k, cell k (columns df) (values df)) names.

(** The calls made between two worlds. *)
Definition new_calls (w w' : world) : list event :=
  drop (length (calls w)) (calls w').

(** A path whose loader, if called, does not raise. *)
Definition readable {A} (f : file A) : Prop :=
  match f with Unreadable _ => False | _ => True end.

(** What a path that loads puts in its slot. *)
Definition content {A} (f : file A) : option A :=
  match f with Stored a => Some a | _ => None end.

(** The path the CNN model is read from (lines 59-66). *)
Definition cnn_source (d : disk) : file KerasModel :=
  if exists_ (cnn_keras_file d) then cnn_keras_file d else cnn_h5_file d.

(** * Notions used in the further statements *)

Import CompleteBackendApiViews.

(** A log without any call of a model. *)
Definition inference_free (l : list event) : Prop :=
  Forall (fun e => is_inference e = false) l.



(** The verdict of [POST /predict/features] for a class code. *)
Definition features_verdict (code : nat) : response :=
  Response 200
    (VerdictBody "XGBoost Feature Model"
       (if Nat.eqb code 1 then "Exoplanet" else "Not an Exoplanet") None).

(** What [POST /predict/features] answers to an exception: a [KeyError],
    wherever it was raised, is reported as a missing feature. *)
Definition features_failure (e : exn) : response :=
  Response 400
    (ErrorBody match exn_kind_of e with
               | KeyError => "Missing feature in request: " ++ exn_msg e
               | _ => exn_msg e
               end).

Definition nine_features : list (string * pyval) :=
  [("koi_period", PFloat (2899 # 10)); ("koi_duration", PFloat (54 # 10));
   ("koi_depth", PFloat 492); ("koi_prad", PFloat (24 # 10));
   ("koi_teq", PFloat 262); ("koi_insol", PFloat (142 # 100));
   ("koi_steff", PFloat 5518); ("koi_srad", PFloat (98 # 100));
   ("koi_model_snr", PFloat (358 # 10))].

(** The verdict of [POST /predict/flux] for a probability. *)
Definition flux_verdict (p : Q) : response :=
  Response 200
    (VerdictBody "CNN Flux Model"
       (if Qle_bool p (1 # 2) then "Not an Exoplanet" else "Exoplanet") (Some p)).

Definition logged (w : world) (new : list event) : world :=
  World (globals w) (clock w) (calls w ++ new).

Definition backend2_disk_with_corrupt_xgb : Backend2.disk :=
  {| Backend2.cnn_file := Stored sample_cnn;
     Backend2.xgb_file := Unreadable (Exn ValueError "Invalid JSON model file");
     Backend2.scaler_file := Stored sample_scaler;
     Backend2.xgb_remains := sample_remains |}.

(** A path whose loader does not raise, and a path that holds an artifact. *)
Definition loads {A} (f : file A) : bool :=
  match f with Unreadable _ => false | _ => true end.
Definition stored {A} (f : file A) : bool :=
  match f with Stored _ => true | _ => false end.

(** Items in order of decreasing importance. *)
Definition by_importance (a b : string * Q) : Prop := (b.2 <= a.2)%Q.

(** The names the importances are listed under (line 315). *)
Definition importance_names (g : Registry) (n : nat) : list string :=
  match names_loaded (feature_names g) with
  | [] => default_feature_names n
  | names => names
  end.

Definition sample_importances (m : XGBClassifier) : result (list Q) :=
  inr [5 # 100; 30 # 100; 20 # 100; 10 # 100; 2 # 100; 25 # 100; 3 # 100; 5 # 100]%Q.

(** What [POST /predict] of [helli.py] answers once the three values are
    read. *)
Definition helli_answer (model : Helli.Booster) (scaler : Scaler) (features : row)
  : reply :=
  match transform scaler features with
  | inl e => error_reply (exn_msg e) 500
  | inr scaled =>
      match Helli.booster_predict model scaled with
      | inl e => error_reply (exn_msg e) 500
      | inr prediction => Reply 200 (PDict [("prediction", PList (PFloat <$> prediction))])
      end
  end.

Definition sample_booster : Helli.Booster :=
  {| Helli.booster_predict := fun _ => inr [87 # 100]%Q |}.

(** [np.array(v).shape] of a flat list of numbers. *)
Definition flat_shape (v : pyval) : result (list nat) :=
  match v with
  | PList l => inr [length l]
  | _ => inr []
  end.

(** * Properties *)

(** ** Rounding *)

Lemma round_half_even_lower (a : Z) (q : Q) :
  (inject_Z a <= q)%Q -> (a <= round_half_even q)%Z.
Proof.
  intros Ha. unfold round_half_even.
  assert (Hlo : (a <= Qfloor q)%Z).
  { rewrite <- (Qfloor_Z a). by apply Qfloor_resp_le. }
  destruct (Qcompare (q - inject_Z (Qfloor q)) (1 # 2)); [|lia..].
  destruct (Z.even (Qfloor q)); lia.
Qed.

Lemma round_half_even_upper (b : Z) (q : Q) :
  (q <= inject_Z b)%Q -> (round_half_even q <= b)%Z.
Proof.
  intros Hb. unfold round_half_even.
  pose proof (Qfloor_le q) as Hfl.
  assert (Hhi : (Qfloor q <= b)%Z).
  { rewrite <- (Qfloor_Z b). by apply Qfloor_resp_le. }
  assert (Hfrac : (Qfloor q = b -> q - inject_Z (Qfloor q) == 0)%Q).
  { intros Heq. rewrite Heq in Hfl |- *.
    assert (Heqq : (q == inject_Z b)%Q) by (by apply Qle_antisym).
    rewrite Heqq. ring. }
  destruct (Qcompare (q - inject_Z (Qfloor q)) (1 # 2)) eqn:Hc.
  - destruct (Z.eq_dec (Qfloor q) b) as [Heq|]; [|destruct (Z.even (Qfloor q)); lia].
    apply Qeq_alt in Hc. rewrite (Hfrac Heq) in Hc. discriminate Hc.
  - lia.
  - destruct (Z.eq_dec (Qfloor q) b) as [Heq|]; [|lia].
    apply Qgt_alt in Hc. rewrite (Hfrac Heq) in Hc. discriminate Hc.
Qed.

Lemma round_half_even_nearest (q : Q) :
  (inject_Z (round_half_even q) - (1 # 2) <= q)%Q /\
  (q <= inject_Z (round_half_even q) + (1 # 2))%Q /\
  ((q == inject_Z (round_half_even q) - (1 # 2))%Q \/
   (q == inject_Z (round_half_even q) + (1 # 2))%Q ->
   Z.even (round_half_even q) = true).
Proof.
  unfold round_half_even.
  pose proof (Qfloor_le q) as Hlo. pose proof (Qlt_floor q) as Hhi.
  rewrite inject_Z_plus in Hhi. change (inject_Z 1) with 1%Q in Hhi.
  destruct (Qcompare (q - inject_Z (Qfloor q)) (1 # 2)) eqn:Hc.
  - apply Qeq_alt in Hc. destruct (Z.even (Qfloor q)) eqn:He.
    + repeat split; [lra|lra|done].
    + rewrite inject_Z_plus. change (inject_Z 1) with 1%Q.
      repeat split; [lra|lra|]. intros _.
      rewrite Z.even_add, He. reflexivity.
  - apply Qlt_alt in Hc. repeat split; [lra|lra|]. intros [H|H]; lra.
  - apply Qgt_alt in Hc. rewrite inject_Z_plus. change (inject_Z 1) with 1%Q.
    repeat split; [lra|lra|]. intros [H|H]; lra.
Qed.

Lemma round2_percent_rounded (p : Q) :
  rounded_to_two_decimals (p * 100) (round2 (percent p)).
Proof.
  exists (round_half_even (p * 100 * 100)). unfold round2, percent.
  split; [apply Qred_correct|]. apply round_half_even_nearest.
Qed.

Lemma round2_percent_nonneg (p : Q) : (0 <= p)%Q -> (0 <= round2 (percent p))%Q.
Proof.
  intros H0. unfold round2, percent. rewrite Qred_correct.
  assert (Hl : (0 <= round_half_even (p * 100 * 100))%Z).
  { apply round_half_even_lower. change (inject_Z 0) with 0%Q.
    revert H0. unfold Qle, Qmult; simpl. lia. }
  revert Hl. generalize (round_half_even (p * 100 * 100)). intros z Hl.
  unfold Qle, Qdiv, Qmult, Qinv, inject_Z; simpl. lia.
Qed.

Lemma round2_percent_le_100 (p : Q) : (p <= 1)%Q -> (round2 (percent p) <= 100)%Q.
Proof.
  intros H1. unfold round2, percent. rewrite Qred_correct.
  assert (Hu : (round_half_even (p * 100 * 100) <= 10000)%Z).
  { apply round_half_even_upper. revert H1. unfold Qle, Qmult, inject_Z; simpl. lia. }
  revert Hu. generalize (round_half_even (p * 100 * 100)). intros z Hu.
  unfold Qle, Qdiv, Qmult, Qinv, inject_Z; simpl. lia.
Qed.

Lemma total_nonneg (ps : list Q) : nonnegative ps -> (0 <= total ps)%Q.
Proof.
  induction 1 as [|p ps Hp _ IH]; simpl; [apply Qle_refl|].
  rewrite <- (Qplus_0_l 0). by apply Qplus_le_compat.
Qed.

(** An entry of a non-negative vector is at most its mass. *)
Lemma entry_le_total (ps : list Q) (i : nat) (p : Q) :
  nonnegative ps -> ps !! i = Some p -> (p <= total ps)%Q.
Proof.
  intros Hnn. revert i. induction Hnn as [|q ps Hq Hps IH]; intros [|i]; simpl; try done.
  - intros [= ->]. rewrite <- (Qplus_0_r p) at 1.
    apply Qplus_le_compat; [apply Qle_refl | by apply total_nonneg].
  - intros Hi. rewrite <- (Qplus_0_l p).
    apply Qplus_le_compat; [done | by eapply IH].
Qed.

(** ** Stepping through a handler *)

Ltac unfold_monad :=
  unfold load, call in *;
  unfold try_except, bind, emit, lift, global, assign, datetime_now, ret, raise in *.

Ltac run := unfold_monad; cbn beta iota zeta in *.

Ltac cases := repeat (case_match; simplify_eq/=; try done).

Lemma xgboost_branch_outputs df w prediction probabilities w' :
  xgboost_branch df w = (inr (inr (prediction, probabilities)), w') ->
  xgb_outputs (globals w) prediction probabilities /\ globals w' = globals w.
Proof.
  unfold xgboost_branch, xgb_outputs. destruct w as [g c l]. run. intros H.
  cases; eauto 10.
Qed.

Lemma cnn_branch_outputs features w prediction probabilities w' :
  cnn_branch features w = (inr (inr (prediction, probabilities)), w') ->
  cnn_outputs (globals w) prediction probabilities /\ globals w' = globals w.
Proof.
  unfold cnn_branch, cnn_outputs. destruct w as [g c l]. run. intros H.
  cases; eauto 10.
Qed.

(** Every response a branch returns on the spot is an error response. *)
Lemma xgboost_branch_early df w r w' :
  xgboost_branch df w = (inr (inl r), w') -> status_of r <> 200%nat.
Proof.
  unfold xgboost_branch. destruct w as [g c l]. run. intros H. cases.
Qed.

Lemma cnn_branch_early features w r w' :
  cnn_branch features w = (inr (inl r), w') -> status_of r <> 200%nat.
Proof.
  unfold cnn_branch. destruct w as [g c l]. run. intros H. cases.
Qed.

Lemma respond_inr model_type prediction probabilities w r w' :
  respond model_type prediction probabilities w = (inr r, w') ->
  exists p label table,
    probabilities !! prediction = Some p /\
    label_of (label_encoder (globals w)) prediction label /\
    proba_table (label_encoder (globals w)) 0 probabilities = inr table /\
    r = Response 200 (PredictionBody label (round2 (percent p)) table model_type (clock w)) /\
    globals w' = globals w.
Proof.
  unfold respond, index_proba, inverse_transform, label_of, jsonify.
  destruct w as [g c l]. run. intros H.
  cases; eauto 10.
Qed.

(** A response with status 200 went through [respond], on the outputs of
    the model the request selected. *)
Lemma predict_single_success data w r w' :
  predict_single data w = (inr r, w') -> status_of r = 200%nat ->
  exists model_type prediction probabilities w1,
    globals w1 = globals w /\
    (xgb_outputs (globals w) prediction probabilities \/
     cnn_outputs (globals w) prediction probabilities) /\
    respond model_type prediction probabilities w1 = (inr r, w').
Proof.
  unfold predict_single, predict_single_try. intros H Hs.
  destruct w as [g c l]. run. cases.
  all: try (exfalso; first [by eapply xgboost_branch_early | by eapply cnn_branch_early]).
  all: match goal with
       | Hb : xgboost_branch _ _ = _ |- _ =>
           apply xgboost_branch_outputs in Hb as [Hout Hg]
       | Hb : cnn_branch _ _ = _ |- _ =>
           apply cnn_branch_outputs in Hb as [Hout Hg]
       end; simpl in *; eauto 10.
Qed.

(** ** Confidence and label of a successful prediction *)

(** C6 (amended). A response of [POST /api/predict] with status 200
    carries, as [confidence], the probability the selected model gave to
    the class it predicted, times 100 and rounded to two decimals: a whole
    number of hundredths nearest to the percentage, the even one at a tie.
    The confidence is at least 0 when the model's probabilities are
    non-negative, and at most 100 when they are at most 1, as the entries
    of a non-negative vector of mass one are; nothing bounds it otherwise.
    [classification] is the label encoder's class at the predicted index
    when an encoder is loaded, the decimal rendering of the index
    otherwise. *)
Theorem successful_prediction_confidence_and_label
    (data : pyval) (w : world) (cls : string) (conf : Q)
    (table : list (string * Q)) (used : string) (ts : nat) :
  fst (serve (predict_single data) w)
    = Response 200 (PredictionBody cls conf table used ts) ->
  exists prediction probabilities p,
    (xgb_outputs (globals w) prediction probabilities \/
     cnn_outputs (globals w) prediction probabilities) /\
    probabilities !! prediction = Some p /\
    conf = round2 (percent p) /\
    rounded_to_two_decimals (p * 100) conf /\
    (nonnegative probabilities -> (0 <= conf)%Q) /\
    (at_most_one probabilities -> (conf <= 100)%Q) /\
    (nonnegative probabilities -> (total probabilities == 1)%Q -> (conf <= 100)%Q) /\
    label_of (label_encoder (globals w)) prediction cls /\
    (forall e, label_encoder (globals w) = Some e -> cls ∈ classes_ e).
Proof.
  unfold serve. intros H.
  destruct (predict_single data w) as [[e|r] w'] eqn:Hrun; simpl in H; [done|].
  subst r. apply predict_single_success in Hrun as (mt & prediction & probabilities & w1 & Hg & Hout & Hresp); [|done].
  apply respond_inr in Hresp as (p & label & table' & Hp & Hlabel & _ & Heq & _).
  injection Heq as -> -> _ _ _. rewrite Hg in Hlabel.
  exists prediction, probabilities, p.
  split; [done|]. split; [done|]. split; [done|].
  split; [apply round2_percent_rounded|]. repeat split; try done.
  - intros Hnn. apply round2_percent_nonneg.
    eapply (proj1 (Forall_forall _ _) Hnn), list_elem_of_lookup_2, Hp.
  - intros Hle. apply round2_percent_le_100.
    eapply (proj1 (Forall_forall _ _) Hle), list_elem_of_lookup_2, Hp.
  - intros Hnn Hone. apply round2_percent_le_100.
    rewrite <- Hone. by eapply entry_le_total.
  - intros e He. rewrite He in Hlabel. simpl in Hlabel.
    by eapply list_elem_of_lookup_2.
Qed.

Lemma successful_prediction_witness :
  exists prediction probabilities p,
    (xgb_outputs full_registry prediction probabilities \/
     cnn_outputs full_registry prediction probabilities) /\
    probabilities !! prediction = Some p /\
    70%Q = round2 (percent p) /\
    rounded_to_two_decimals (p * 100) 70 /\
    (nonnegative probabilities -> (0 <= 70)%Q) /\
    (at_most_one probabilities -> (70 <= 100)%Q) /\
    (nonnegative probabilities -> (total probabilities == 1)%Q -> (70 <= 100)%Q) /\
    label_of (Some sample_encoder) prediction "CONFIRMED" /\
    (forall e, Some sample_encoder = Some e -> "CONFIRMED" ∈ classes_ e).
Proof.
  apply (successful_prediction_confidence_and_label
           (single_request "xgboost" kepler22b) full_world "CONFIRMED" 70%Q
           [("CANDIDATE", 10%Q); ("CONFIRMED", 70%Q); ("FALSE POSITIVE", 20%Q)]
           "xgboost" 0%nat).
  vm_compute. reflexivity.
Defined.

(** C6 as stated fails: non-negative outputs alone do not keep the
    confidence within 100. A network whose output is 1.5 is answered with
    a confidence of 150: line 210 multiplies and line 215 rounds, and
    nothing clamps. *)
Lemma successful_prediction_counterexample :
  nonnegative [3 # 2]%Q /\
  cnn_outputs (globals overconfident_world) 0 [3 # 2]%Q /\
  (serve (predict_single
            (single_request "cnn" (PDict [("flux_values", flux_of_length 3197)])))
     overconfident_world).1
  = Response 200 (PredictionBody "0" 150 [("0", 150%Q)] "cnn" 0) /\
  ~ (150 <= 100)%Q.
Proof.
  split; [|split; [|split]].
  - by repeat constructor.
  - exists overconfident_cnn, (flux_of_length 3197). by repeat split.
  - vm_compute. reflexivity.
  - by intros H.
Qed.


(** ** Handlers read the globals and leave them alone *)

Section Stable.

Context {A : Type} (R : A -> A -> Prop).

Lemma stable_ret (a : A) : R a a -> stable R (ret a).
Proof. by intros HR w1 w2 Hg. Qed.

Lemma stable_raise (e : exn) : stable R (raise e).
Proof. by intros w1 w2 Hg. Qed.

Lemma stable_lift (r : result A) : (forall a, R a a) -> stable R (lift r).
Proof. intros HR w1 w2 Hg. unfold lift; simpl. destruct r; simpl; auto. Qed.

Lemma stable_global (f : Registry -> A) : (forall a, R a a) -> stable R (global f).
Proof. intros HR w1 w2 Hg. unfold global; simpl. rewrite Hg. auto. Qed.

End Stable.

Lemma stable_bind {A B} (R : B -> B -> Prop) (m : M A) (k : A -> M B) :
  stable eq m -> (forall a, stable R (k a)) -> stable R (bind m k).
Proof.
  intros Hm Hk w1 w2 Hg. unfold bind.
  destruct (Hm w1 w2 Hg) as [Hr Hg1]. destruct (Hm w2 w1 (eq_sym Hg)) as [_ Hg2].
  destruct (m w1) as [[e1|a1] w1'], (m w2) as [[e2|a2] w2']; simpl in *; try done.
  subst a2. destruct (Hk a1 w1' w2') as [Hr' Hg']; [congruence|].
  split; [done|congruence].
Qed.

Lemma stable_try_except {A} (R : A -> A -> Prop) (m : M A) (h : exn -> M A) :
  stable R m -> (forall e, stable R (h e)) -> stable R (try_except m h).
Proof.
  intros Hm Hh w1 w2 Hg. unfold try_except.
  destruct (Hm w1 w2 Hg) as [Hr Hg1]. destruct (Hm w2 w1 (eq_sym Hg)) as [_ Hg2].
  destruct (m w1) as [[e1|a1] w1'], (m w2) as [[e2|a2] w2']; simpl in *; try done.
  subst e2. destruct (Hh e1 w1' w2') as [Hr' Hg']; [congruence|].
  split; [done|congruence].
Qed.

Lemma stable_call {A} (e : event) (r : result A) : stable eq (call e r).
Proof. intros w1 w2 Hg. unfold call, bind, emit, lift; simpl. by destruct r. Qed.

(** Reading the clock last: the outcome is stable up to what the time
    stamp cannot change. *)
Lemma stable_now {A} (R : A -> A -> Prop) (f : nat -> A) :
  (forall t1 t2, R (f t1) (f t2)) ->
  stable R (bind datetime_now (fun now => ret (f now))).
Proof. intros HR w1 w2 Hg. split; [apply HR | reflexivity]. Qed.

Lemma stable_weaken {A} (R : A -> A -> Prop) (m : M A) :
  (forall a, R a a) -> stable eq m -> stable R m.
Proof.
  intros HR Hm w1 w2 Hg. destruct (Hm w1 w2 Hg) as [Hr Hg1]. split; [|done].
  destruct (m w1).1, (m w2).1; simpl in *; try done. by subst.
Qed.

Ltac stable_step :=
  first
    [ apply stable_ret; done
    | apply stable_raise
    | apply stable_lift; done
    | apply stable_global; done
    | apply stable_call
    | apply stable_bind; [|intros ?]
    | case_match ].

Lemma xgboost_branch_stable df : stable eq (xgboost_branch df).
Proof. unfold xgboost_branch. repeat stable_step. Qed.

Lemma cnn_branch_stable features : stable eq (cnn_branch features).
Proof. unfold cnn_branch. repeat stable_step. Qed.

Lemma same_answer_refl r : same_answer r r.
Proof. done. Qed.

Lemma respond_stable model_type prediction probabilities :
  stable same_answer (respond model_type prediction probabilities).
Proof.
  unfold respond.
  repeat first [ apply stable_now; done | stable_step ].
Qed.

Lemma predict_single_stable data : stable same_answer (predict_single data).
Proof.
  unfold predict_single, predict_single_try.
  apply stable_try_except; [|intros e; by apply stable_ret].
  pose proof same_answer_refl.
  repeat first
    [ apply respond_stable
    | apply stable_weaken; [done|]; first [apply xgboost_branch_stable | apply cnn_branch_stable]
    | apply xgboost_branch_stable | apply cnn_branch_stable
    | stable_step ].
Qed.

(** ** Repeating a request *)

(** C9. Two runs of [POST /api/predict] on the same request, in two worlds
    that hold the same globals (whatever their clocks and call logs), carry
    the same status, classification and confidence; and a run leaves the
    globals as it found them. *)
Theorem repeated_request_same_answer (data : pyval) (w1 w2 : world) :
  globals w2 = globals w1 ->
  let first := serve (predict_single data) w1 in
  let second := serve (predict_single data) w2 in
  status_of first.1 = status_of second.1 /\
  classification_of first.1 = classification_of second.1 /\
  confidence_of first.1 = confidence_of second.1 /\
  globals first.2 = globals w1.
Proof.
  intros Hg. destruct (predict_single_stable data w1 w2 (eq_sym Hg)) as [Hr Hw].
  unfold serve; simpl.
  destruct (predict_single data w1) as [[e1|r1] w1'],
           (predict_single data w2) as [[e2|r2] w2']; simpl in *; try done.
  destruct Hr as (? & ? & ? & ?). done.
Qed.

Lemma repeated_request_witness :
  let data := single_request "xgboost" kepler22b in
  let first := serve (predict_single data) full_world in
  let second := serve (predict_single data) later_world in
  status_of first.1 = status_of second.1 /\
  classification_of first.1 = classification_of second.1 /\
  confidence_of first.1 = confidence_of second.1 /\
  globals first.2 = globals full_world.
Proof.
  apply (repeated_request_same_answer (single_request "xgboost" kepler22b)
           full_world later_world).
  reflexivity.
Defined.

(** The time stamps of the two runs do differ. *)
Example repeated_request_time_stamps :
  (serve (predict_single (single_request "xgboost" kepler22b)) full_world).1
  <> (serve (predict_single (single_request "xgboost" kepler22b)) later_world).1.
Proof. vm_compute. discriminate. Qed.

(** ** The batch endpoint *)

Lemma truthy_iter_nonempty v items :
  truthy v = true -> py_iter v = inr items -> items <> [].
Proof.
  destruct v as [| | | |s|l|d]; simpl; try done.
  - destruct s; simpl; [done|]. by intros _ [= <-].
  - destruct l; [done|]. by intros _ [= <-].
  - destruct d; [done|]. by intros _ [= <-].
Qed.

Lemma each_observation_raises view model_type obs rest results w :
  exists e, each_observation view model_type (obs :: rest) results w = (inl e, w).
Proof.
  simpl. unfold bind, call_wrapped, raise. destruct (has_wrapped view); eauto.
Qed.

(** Whether or not the view function carries a [__wrapped__] attribute, the
    batch endpoint never answers 200: the call of line 260 raises on the
    first observation. *)
Lemma predict_batch_never_succeeds view data w r w' :
  try_except (predict_batch_try view data)
    (fun e => ret (jsonify_status (ErrorBody (exn_msg e)) 500)) w = (inr r, w') ->
  (status_of r = 400 \/ status_of r = 500)%nat /\ w' = w.
Proof.
  unfold predict_batch_try. destruct w as [g c l]. run.
  destruct (negb (truthy data)); [intros [= <- <-]; auto|].
  destruct (py_get data "model" _) as [e|m]; [intros [= <- <-]; auto|].
  destruct (py_lower m) as [e|mt]; [intros [= <- <-]; auto|].
  destruct (py_get data "data" _) as [e|observations]; [intros [= <- <-]; auto|].
  destruct (negb (truthy observations)) eqn:Ht; [intros [= <- <-]; auto|].
  destruct (py_iter observations) as [e|items] eqn:Hi; [intros [= <- <-]; auto|].
  apply negb_false_iff in Ht.
  destruct items as [|obs rest]; [by eapply truthy_iter_nonempty in Hi|].
  destruct (each_observation_raises view mt obs rest [] (World g c l)) as [e ->].
  intros [= <- <-]; auto.
Qed.

(** C1. On the Kepler-22b observation with every artifact loaded, the
    single endpoint answers 200 with a classification, while the batch
    endpoint, given that observation as a one-element batch, answers 500
    with the message of the [AttributeError] line 260 raises. *)
Theorem batch_of_one_is_not_single :
  (serve (predict_single (single_request "xgboost" kepler22b)) full_world).1
  = Response 200
      (PredictionBody "CONFIRMED" 70%Q
         [("CANDIDATE", 10%Q); ("CONFIRMED", 70%Q); ("FALSE POSITIVE", 20%Q)]
         "xgboost" 0%nat)
  /\ (serve (predict_batch (batch_request "xgboost" [kepler22b])) full_world).1
     = Response 500 (ErrorBody "'function' object has no attribute '__wrapped__'").
Proof. split; vm_compute; reflexivity. Qed.

(** ** Which branch a request takes *)

Lemma assoc_some_truthy k d v : assoc k d = Some v -> truthy (PDict d) = true.
Proof. by destruct d. Qed.

Lemma selects_model_type kind d :
  selects kind d ->
  match py_get (PDict d) "model" (PStr "xgboost") with
  | inr m => py_lower m = inr kind
  | inl _ => False
  end.
Proof.
  unfold selects, py_get. intros [[-> ->]|(s & -> & <-)]; done.
Qed.

Lemma predict_single_tabular d features w :
  selects "xgboost" d -> assoc "features" d = Some features ->
  truthy features = true ->
  predict_single (PDict d) w = tabular_path features w.
Proof.
  intros Hsel Hf Ht. apply selects_model_type in Hsel.
  unfold predict_single, predict_single_try, tabular_path, on_exception.
  rewrite (assoc_some_truthy _ _ _ Hf). cbn [negb].
  unfold try_except. unfold bind at 1, lift at 1.
  destruct (py_get (PDict d) "model" _) as [|m]; [done|].
  unfold bind at 1, lift at 1. rewrite Hsel.
  unfold bind at 1, lift at 1. unfold py_get. rewrite Hf, Ht. cbn [negb].
  reflexivity.
Qed.

Lemma predict_single_sequence d features w :
  selects "cnn" d -> assoc "features" d = Some features ->
  truthy features = true ->
  predict_single (PDict d) w = sequence_path features w.
Proof.
  intros Hsel Hf Ht. apply selects_model_type in Hsel.
  unfold predict_single, predict_single_try, sequence_path, on_exception.
  rewrite (assoc_some_truthy _ _ _ Hf). cbn [negb].
  unfold try_except. unfold bind at 1, lift at 1.
  destruct (py_get (PDict d) "model" _) as [|m]; [done|].
  unfold bind at 1, lift at 1. rewrite Hsel.
  unfold bind at 1, lift at 1. unfold py_get. rewrite Hf, Ht. cbn [negb].
  reflexivity.
Qed.

Lemma predict_single_unknown d s features w :
  assoc "model" d = Some (PStr s) ->
  lower s <> "xgboost" -> lower s <> "cnn" ->
  assoc "features" d = Some features -> truthy features = true ->
  predict_single (PDict d) w
  = (inr (Response 400 (ErrorBody ("Invalid model type: " ++ lower s))),
     World (globals w) (clock w) (calls w ++ [EvDataFrame features])).
Proof.
  intros Hm Hx Hc Hf Ht.
  unfold predict_single, predict_single_try.
  rewrite (assoc_some_truthy _ _ _ Hf). cbn [negb].
  unfold py_get. rewrite Hm, Hf. run. rewrite Ht. cbn [negb].
  apply String.eqb_neq in Hx, Hc. cbn [py_lower]. rewrite Hx, Hc. reflexivity.
Qed.

(** ** Default model and unknown models *)

(** C10 (amended). For a body that is a dict with a non-empty [features]
    entry, a missing [model] key, or a [model] string that reads
    [xgboost] once lower-cased, sends the request down the tabular path:
    the answer is the one of lines 153-179 and 204-224, and it is
    [XGBoost model not loaded] with status 500 when that model is absent. *)
Theorem model_defaults_to_xgboost_ignoring_case
    (d : list (string * pyval)) (features : pyval) (w : world) :
  assoc "features" d = Some features -> truthy features = true ->
  assoc "model" d = None \/
    (exists s, assoc "model" d = Some (PStr s) /\ lower s = "xgboost") ->
  serve (predict_single (PDict d)) w = serve (tabular_path features) w /\
  (xgb_model (globals w) = None ->
   (serve (predict_single (PDict d)) w).1
   = Response 500 (ErrorBody "XGBoost model not loaded")).
Proof.
  intros Hf Ht Hm.
  assert (Hsel : selects "xgboost" d) by (unfold selects; tauto).
  unfold serve. rewrite (predict_single_tabular d features w Hsel Hf Ht).
  split; [done|]. intros Hx.
  unfold tabular_path, xgboost_branch, on_exception. destruct w as [g c l].
  simpl in Hx. run. simpl. by rewrite Hx.
Qed.

Lemma model_default_witness :
  (serve (predict_single (PDict [("features", kepler22b)])) full_world
   = serve (tabular_path kepler22b) full_world) /\
  (serve (predict_single (single_request "XGBoost" kepler22b)) initial_world).1
  = Response 500 (ErrorBody "XGBoost model not loaded").
Proof.
  split.
  - apply (model_defaults_to_xgboost_ignoring_case
             [("features", kepler22b)] kepler22b full_world);
      [reflexivity | reflexivity | left; reflexivity].
  - apply (model_defaults_to_xgboost_ignoring_case
             [("model", PStr "XGBoost"); ("features", kepler22b)] kepler22b initial_world);
      [reflexivity | reflexivity | right; exists "XGBoost"; split; reflexivity
      | reflexivity].
Defined.

(** C10 as stated fails twice. A single request without [model] and without
    features is answered by the features guard, not by the tabular path
    (which would report the missing model); and a batch request without
    [model] reaches no model at all: the call of line 260 raises, and the
    world, call log included, is left untouched. *)
Lemma model_default_counterexample :
  assoc "model" [("features", PDict [])] = None /\
  (serve (predict_single (PDict [("features", PDict [])])) initial_world).1
  = Response 400 (ErrorBody "No features provided") /\
  (serve (tabular_path (PDict [])) initial_world).1
  = Response 500 (ErrorBody "XGBoost model not loaded") /\
  assoc "model" [("data", PList [kepler22b])] = None /\
  serve (predict_batch (PDict [("data", PList [kepler22b])])) full_world
  = (Response 500 (ErrorBody "'function' object has no attribute '__wrapped__'"),
     full_world).
Proof. repeat split; vm_compute; reflexivity. Qed.

(** C5 (amended). For a body that is a dict holding a [model] entry:
    when [model] is a string that, lower-cased, is neither [xgboost] nor
    [cnn] and the [features] entry is non-empty, the answer is 400 with an
    error body, only the data frame was built before, and for an ASCII
    name the error reads [Invalid model type: ] followed by the lower-cased
    name; when [model] is not a string the answer is 500, with or without
    features, since the value has no [lower] method; and when [model] is a
    string and the features are absent or empty the answer is 400
    [No features provided]. *)
Theorem unknown_model_is_rejected (d : list (string * pyval)) (w : world) :
  (forall s features,
     assoc "model" d = Some (PStr s) ->
     lower s <> "xgboost" -> lower s <> "cnn" ->
     assoc "features" d = Some features -> truthy features = true ->
     exists msg,
       serve (predict_single (PDict d)) w
       = (Response 400 (ErrorBody msg),
          World (globals w) (clock w) (calls w ++ [EvDataFrame features])) /\
       (is_ascii s = true -> msg = "Invalid model type: " ++ lower s)) /\
  (forall v,
     assoc "model" d = Some v -> (forall s, v <> PStr s) ->
     serve (predict_single (PDict d)) w
     = (Response 500 (ErrorBody (exn_msg (no_attribute v "lower"))), w)) /\
  (forall s,
     assoc "model" d = Some (PStr s) ->
     match assoc "features" d with
     | Some features => truthy features = false
     | None => True
     end ->
     serve (predict_single (PDict d)) w
     = (Response 400 (ErrorBody "No features provided"), w)).
Proof.
  split; [|split].
  - intros s features Hm Hx Hc Hf Ht. eexists. unfold serve.
    rewrite (predict_single_unknown d s features w Hm Hx Hc Hf Ht). by split.
  - intros v Hm Hv. unfold serve, predict_single, predict_single_try.
    rewrite (assoc_some_truthy _ _ _ Hm). cbn [negb].
    unfold py_get. rewrite Hm. destruct w as [g c l]. run.
    destruct v; try done. by destruct (Hv s).
  - intros s Hm Hf. unfold serve, predict_single, predict_single_try.
    rewrite (assoc_some_truthy _ _ _ Hm). cbn [negb].
    unfold py_get. rewrite Hm. destruct w as [g c l]. run.
    destruct (assoc "features" d) as [features|]; [by rewrite Hf|done].
Qed.

Lemma unknown_model_witness :
  exists msg,
    serve (predict_single (single_request "Random_Forest" kepler22b)) full_world
    = (Response 400 (ErrorBody msg), World full_registry 0 [EvDataFrame kepler22b]) /\
    (is_ascii "Random_Forest" = true -> msg = "Invalid model type: random_forest").
Proof.
  apply (proj1 (unknown_model_is_rejected
                  [("model", PStr "Random_Forest"); ("features", kepler22b)] full_world)
           "Random_Forest" kepler22b);
    [reflexivity | discriminate | discriminate | reflexivity | reflexivity].
Defined.

(** C5 as stated fails: a [model] that is not a string has no [lower]
    method, and the [AttributeError] is answered with 500; and an unknown
    model without features is answered by the features guard. *)
Lemma unknown_model_counterexample :
  (serve (predict_single (PDict [("model", PInt 5); ("features", kepler22b)]))
     full_world).1
  = Response 500 (ErrorBody "'int' object has no attribute 'lower'") /\
  (serve (predict_single (PDict [("model", PStr "random_forest")])) full_world).1
  = Response 400 (ErrorBody "No features provided").
Proof. split; vm_compute; reflexivity. Qed.

(** ** Required features *)

Lemma column_names_dict fd : column_names (pd_DataFrame (PDict fd)) = keys fd.
Proof.
  unfold column_names, keys; simpl. induction fd as [|[k v] fd IH]; [done|].
  cbn. f_equal. exact IH.
Qed.

Lemma elem_of_missing_features names df k :
  k ∈ missing_features names df <-> k ∈ names /\ k ∉ column_names df.
Proof.
  unfold missing_features. rewrite elem_of_difference, !elem_of_list_to_set. done.
Qed.

(** The tabular path when the list of names is loaded and some name is not
    a column: the 400 of lines 164-167, after the data frame alone. *)
Lemma tabular_path_missing features w model names :
  xgb_model (globals w) = Some model ->
  feature_names (globals w) = Some names ->
  missing_features names (pd_DataFrame features) <> ∅ ->
  tabular_path features w
  = (inr (Response 400
            (MissingBody "Missing required features"
               (elements (missing_features names (pd_DataFrame features))))),
     World (globals w) (clock w) (calls w ++ [EvDataFrame features])).
Proof.
  intros Hx Hn Hmiss.
  unfold tabular_path, xgboost_branch, on_exception. destruct w as [g c l].
  simpl in Hx, Hn. run. simpl. rewrite Hx. simpl. rewrite Hn. simpl.
  destruct names as [|n names'].
  { exfalso. apply Hmiss. apply set_eq. intros x.
    rewrite elem_of_missing_features, elem_of_nil.
    split; [tauto | by intros ?%not_elem_of_empty]. }
  destruct (decide (missing_features (n :: names') (pd_DataFrame features) = ∅));
    [done|reflexivity].
Qed.

(** C2 (amended). With the tabular model and a list of feature names
    loaded, a tabular request whose non-empty feature mapping lacks at
    least one listed name is answered 400, and [missing] holds exactly the
    listed names that are not keys of the mapping, each once; no model has
    been called. *)
Theorem missing_features_are_reported_exactly
    (d fd : list (string * pyval)) (w : world) (model : XGBClassifier)
    (names : list string) (k : string) :
  assoc "model" d = None \/
    (exists s, assoc "model" d = Some (PStr s) /\ lower s = "xgboost") ->
  assoc "features" d = Some (PDict fd) -> fd <> [] ->
  xgb_model (globals w) = Some model ->
  feature_names (globals w) = Some names ->
  k ∈ names -> k ∉ keys fd ->
  exists missing,
    serve (predict_single (PDict d)) w
    = (Response 400 (MissingBody "Missing required features" missing),
       World (globals w) (clock w) (calls w ++ [EvDataFrame (PDict fd)])) /\
    NoDup missing /\
    (forall x, x ∈ missing <-> x ∈ names /\ x ∉ keys fd).
Proof.
  intros Hm Hf Hne Hx Hn Hk Hnk.
  assert (Hsel : selects "xgboost" d) by (unfold selects; tauto).
  assert (Ht : truthy (PDict fd) = true) by (by destruct fd).
  exists (elements (missing_features names (pd_DataFrame (PDict fd)))).
  split; [|split].
  - unfold serve. rewrite (predict_single_tabular d _ w Hsel Hf Ht).
    rewrite (tabular_path_missing _ w model names Hx Hn); [done|].
    intros Hempty.
    assert (Hin : k ∈ missing_features names (pd_DataFrame (PDict fd))).
    { apply elem_of_missing_features. by rewrite column_names_dict. }
    rewrite Hempty in Hin. by apply not_elem_of_empty in Hin.
  - apply NoDup_elements.
  - intros x. rewrite elem_of_elements, elem_of_missing_features.
    by rewrite column_names_dict.
Qed.

Lemma missing_features_witness :
  exists missing,
    serve (predict_single (single_request "xgboost" two_features)) full_world
    = (Response 400 (MissingBody "Missing required features" missing),
       World full_registry 0 [EvDataFrame two_features]) /\
    NoDup missing /\
    (forall x, x ∈ missing <->
       x ∈ sample_features /\ x ∉ ["koi_period"; "koi_duration"]).
Proof.
  apply (missing_features_are_reported_exactly
           [("model", PStr "xgboost"); ("features", two_features)]
           [("koi_period", PFloat (105 # 10)); ("koi_duration", PFloat (32 # 10))]
           full_world sample_xgb sample_features "koi_depth").
  - right. exists "xgboost". split; reflexivity.
  - reflexivity.
  - discriminate.
  - reflexivity.
  - reflexivity.
  - apply (bool_decide_unpack _). vm_compute. exact I.
  - apply (bool_decide_unpack _). vm_compute. exact I.
Defined.

(** C2 as stated fails: when the tabular model is not loaded the request
    is answered 500 before any key is looked at, and a request without
    features is answered by the features guard, with no [missing] entry. *)
Lemma missing_features_counterexample :
  feature_names (globals (World (set_xgb_model None full_registry) 0 []))
  = Some sample_features /\
  "koi_depth" ∈ sample_features /\
  (serve (predict_single (single_request "xgboost" two_features))
     (World (set_xgb_model None full_registry) 0 [])).1
  = Response 500 (ErrorBody "XGBoost model not loaded") /\
  (serve (predict_single (single_request "xgboost" (PDict []))) full_world).1
  = Response 400 (ErrorBody "No features provided").
Proof.
  repeat split; try (vm_compute; reflexivity).
  apply (bool_decide_unpack _). vm_compute. exact I.
Qed.

Lemma tabular_path_unvalidated features w model :
  xgb_model (globals w) = Some model ->
  names_loaded (feature_names (globals w)) = [] ->
  is_missing_body (serve (tabular_path features) w).1 = false /\
  exists rest,
    calls (serve (tabular_path features) w).2
    = (calls w ++ [EvDataFrame features;
                   first_numeric_call (scaler (globals w))
                     (values (pd_DataFrame features))] ++ rest)%list.
Proof.
  intros Hx Hn.
  unfold serve, tabular_path, xgboost_branch, respond, on_exception, first_numeric_call.
  destruct w as [g c l]. simpl in Hx, Hn. run. simpl. rewrite Hx. simpl. rewrite Hn. simpl.
  cases; (split; [done|]); rewrite <- ?app_assoc; simpl; eauto.
Qed.

Lemma nothing_missing_filter names df :
  missing_features names df = ∅ ->
  filter (λ k, k ∉ column_names df) names = [].
Proof.
  intros Hm. destruct (filter _ names) as [|x rest] eqn:Hf; [done|].
  assert (Hx : x ∈ filter (λ k, k ∉ column_names df) names)
    by (rewrite Hf; apply list_elem_of_here).
  apply list_elem_of_filter in Hx as [Hnot Hin].
  assert (Hin' : x ∈ missing_features names df)
    by (by apply elem_of_missing_features).
  rewrite Hm in Hin'. by apply not_elem_of_empty in Hin'.
Qed.

Lemma tabular_path_validated features w model names :
  xgb_model (globals w) = Some model ->
  feature_names (globals w) = Some names -> names <> [] ->
  missing_features names (pd_DataFrame features) = ∅ ->
  is_missing_body (serve (tabular_path features) w).1 = false /\
  exists rest,
    calls (serve (tabular_path features) w).2
    = (calls w ++ [EvDataFrame features;
                   first_numeric_call (scaler (globals w))
                     (selected names (pd_DataFrame features))] ++ rest)%list.
Proof.
  intros Hx Hn Hne Hm.
  unfold serve, tabular_path, xgboost_branch, respond, on_exception,
    first_numeric_call, selected.
  destruct w as [g c l]. simpl in Hx, Hn. run. simpl. rewrite Hx. simpl. rewrite Hn. simpl.
  destruct names as [|n names']; [done|].
  destruct (decide (missing_features (n :: names') (pd_DataFrame features) = ∅)); [|done].
  unfold df_select. rewrite (nothing_missing_filter _ _ Hm). simpl.
  cases; (split; [done|]); rewrite <- ?app_assoc; simpl; eauto.
Qed.





(** ** Absent models and failing inference *)

Ltac split_calls :=
  unfold new_calls in *; simpl in *;
  rewrite <- ?app_assoc in *; rewrite ?drop_app_length in *; simpl in *;
  repeat match goal with
         | H : _ ∈ [] |- _ => by apply elem_of_nil in H
         | H : _ ∈ _ :: _ |- _ => apply elem_of_cons in H as [H|H]; simplify_eq/=
         end.

(** No exception leaves [predict_single]. *)
Lemma predict_single_returns data w :
  exists r w', predict_single data w = (inr r, w').
Proof.
  unfold predict_single, try_except, ret.
  destruct (predict_single_try data w) as [[e|r] w']; eauto.
Qed.

Lemma tabular_path_failing_inference features w :
  let out := serve (tabular_path features) w in
  (forall model x e, xgb_model (globals w) = Some model ->
     EvPredict x ∈ new_calls w out.2 -> xgb_predict model x = inl e ->
     out.1 = Response 500 (ErrorBody (exn_msg e))) /\
  (forall model x e, xgb_model (globals w) = Some model ->
     EvPredictProba x ∈ new_calls w out.2 -> xgb_predict_proba model x = inl e ->
     out.1 = Response 500 (ErrorBody (exn_msg e))).
Proof.
  unfold serve, tabular_path, xgboost_branch, respond, on_exception.
  destruct w as [g c l]. run. simpl.
  split; intros model x e Hmodel Hin Hraise; rewrite Hmodel in *; simpl in *.
  - cases; split_calls; unfold jsonify_status; congruence.
  - cases; split_calls; unfold jsonify_status; congruence.
Qed.

Lemma sequence_path_failing_inference features w :
  let out := serve (sequence_path features) w in
  forall model x e, cnn_model (globals w) = Some model ->
    EvKerasPredict x ∈ new_calls w out.2 -> keras_predict model x = inl e ->
    out.1 = Response 500 (ErrorBody (exn_msg e)).
Proof.
  unfold serve, sequence_path, cnn_branch, respond, on_exception.
  destruct w as [g c l]. run. simpl.
  intros model x e Hmodel Hin Hraise; rewrite Hmodel in *; simpl in *.
  cases; split_calls; unfold jsonify_status; congruence.
Qed.

(** C4 (amended). For a body that is a dict with a non-empty [features]
    entry: when the model the request selects is absent the answer is 500
    with [XGBoost model not loaded] or [CNN model not loaded], after the
    data frame was built and before any scaling or inference; when a call
    of [predict], [predict_proba] or the keras [predict] raises, the answer
    is 500 with the message of that exception; and whatever the request, no
    exception leaves the view. *)
Theorem absent_model_and_failing_inference
    (d : list (string * pyval)) (features : pyval) (w : world) :
  assoc "features" d = Some features -> truthy features = true ->
  let out := serve (predict_single (PDict d)) w in
  let after_frame := World (globals w) (clock w) (calls w ++ [EvDataFrame features]) in
  (selects "xgboost" d ->
   (xgb_model (globals w) = None ->
    out = (Response 500 (ErrorBody "XGBoost model not loaded"), after_frame)) /\
   (forall model x e, xgb_model (globals w) = Some model ->
      EvPredict x ∈ new_calls w out.2 -> xgb_predict model x = inl e ->
      out.1 = Response 500 (ErrorBody (exn_msg e))) /\
   (forall model x e, xgb_model (globals w) = Some model ->
      EvPredictProba x ∈ new_calls w out.2 -> xgb_predict_proba model x = inl e ->
      out.1 = Response 500 (ErrorBody (exn_msg e)))) /\
  (selects "cnn" d ->
   (cnn_model (globals w) = None ->
    out = (Response 500 (ErrorBody "CNN model not loaded"), after_frame)) /\
   (forall model x e, cnn_model (globals w) = Some model ->
      EvKerasPredict x ∈ new_calls w out.2 -> keras_predict model x = inl e ->
      out.1 = Response 500 (ErrorBody (exn_msg e)))) /\
  (exists r w', predict_single (PDict d) w = (inr r, w')).
Proof.
  intros Hf Ht out after_frame. split; [|split].
  - intros Hsel.
    assert (Hout : out = serve (tabular_path features) w).
    { unfold out, serve. by rewrite (predict_single_tabular d _ w Hsel Hf Ht). }
    rewrite Hout. split; [|apply tabular_path_failing_inference].
    intros Hx. unfold after_frame, serve, tabular_path, xgboost_branch, on_exception.
    destruct w as [g c l]. simpl in Hx. run. simpl. by rewrite Hx.
  - intros Hsel.
    assert (Hout : out = serve (sequence_path features) w).
    { unfold out, serve. by rewrite (predict_single_sequence d _ w Hsel Hf Ht). }
    rewrite Hout. split; [|apply sequence_path_failing_inference].
    intros Hx. unfold after_frame, serve, sequence_path, cnn_branch, on_exception.
    destruct w as [g c l]. simpl in Hx. run. simpl. by rewrite Hx.
  - apply predict_single_returns.
Qed.

Lemma absent_model_witness :
  serve (predict_single (single_request "xgboost" kepler22b)) initial_world
  = (Response 500 (ErrorBody "XGBoost model not loaded"),
     World empty_registry 0 [EvDataFrame kepler22b]) /\
  (serve (predict_single (single_request "xgboost" kepler22b)) broken_world).1
  = Response 500 (ErrorBody "Feature shape mismatch, expected: 9, got 8").
Proof.
  split.
  - refine (proj1 (proj1 (absent_model_and_failing_inference
                            [("model", PStr "xgboost"); ("features", kepler22b)]
                            kepler22b initial_world _ _) _) _);
      [reflexivity | reflexivity | right; exists "xgboost"; split; reflexivity
      | reflexivity].
  - refine (proj1 (proj2 (proj1 (absent_model_and_failing_inference
                            [("model", PStr "xgboost"); ("features", kepler22b)]
                            kepler22b broken_world _ _) _))
              broken_xgb
              [PFloat (2899 # 10); PFloat (54 # 10); PFloat 492; PFloat (24 # 10);
               PFloat 262; PFloat (142 # 100); PFloat 5518; PFloat (98 # 100)]
              (Exn ValueError "Feature shape mismatch, expected: 9, got 8") _ _ _);
      [reflexivity | reflexivity | right; exists "xgboost"; split; reflexivity
      | reflexivity | | reflexivity].
    vm_compute. apply list_elem_of_further, list_elem_of_further, list_elem_of_here.
Defined.

(** C4 as stated fails: with no model loaded, a request without features
    is answered by the features guard with 400, not with 500; and the data
    frame is built before the model is looked for. *)
Lemma absent_model_counterexample :
  xgb_model (globals initial_world) = None /\
  serve (predict_single (PDict [("model", PStr "xgboost")])) initial_world
  = (Response 400 (ErrorBody "No features provided"), initial_world) /\
  calls (serve (predict_single (single_request "xgboost" kepler22b)) initial_world).2
  = [EvDataFrame kepler22b].
Proof. repeat split; vm_compute; reflexivity. Qed.

(** ** The length of a flux series *)

Lemma assoc_some_in_keys k d v : assoc k d = Some v -> k ∈ keys d.
Proof.
  unfold keys. induction d as [|[k' v'] d IH]; simpl; [done|].
  destruct (String.eqb k k') eqn:Hk.
  - apply String.eqb_eq in Hk as ->. intros _. apply list_elem_of_here.
  - intros H. apply list_elem_of_further, IH, H.
Qed.

(** [POST /predict/flux] of [backend2.py] turns away a list of any length
    other than 3197, naming both lengths, before the model is called. *)
Lemma predict_flux_rejects_other_lengths d l w model :
  cnn_model (globals w) = Some model ->
  assoc "flux_data" d = Some (PList l) -> length l <> 3197%nat ->
  serve (Backend2.predict_flux (PDict d)) w
  = (Response 400
       (ErrorBody ("Invalid input: Expected 3197 flux values, got "
                   ++ pretty (length l) ++ ".")), w).
Proof.
  intros Hm Hf Hlen. unfold serve, Backend2.predict_flux.
  destruct w as [g c cs]. simpl in Hm. run. simpl. rewrite Hm. simpl. rewrite Hf. simpl.
  apply Nat.eqb_neq in Hlen. by rewrite Hlen.
Qed.

(** The time-series path of [POST /api/predict] hands the flux series to
    the model whatever its length. *)
Lemma sequence_path_calls_model fd flux w model :
  cnn_model (globals w) = Some model ->
  assoc "flux_values" fd = Some flux ->
  EvKerasPredict flux ∈ new_calls w (serve (sequence_path (PDict fd)) w).2.
Proof.
  intros Hm Hf.
  unfold serve, sequence_path, cnn_branch, respond, on_exception.
  destruct w as [g c l]. simpl in Hm. run. simpl. rewrite Hm. simpl.
  rewrite (bool_decide_eq_true_2 _ (assoc_some_in_keys _ _ _ Hf)). simpl. rewrite Hf.
  cases; unfold new_calls; simpl; rewrite <- ?app_assoc, drop_app_length;
    apply list_elem_of_further, list_elem_of_here.
Qed.

(** C3. A flux series of 3196 readings sent to [POST /api/predict] with
    [model: cnn] is not turned away: the model is called on it, and the
    answer is the model's (200 from a model that accepts the input, 500
    from one that raises on it), never the 400 that [POST /predict/flux] of
    [backend2.py] gives for the same series. *)
Theorem short_flux_reaches_the_model :
  serve (predict_single short_flux_request) full_world
  = (Response 200
       (PredictionBody "CONFIRMED" 75%Q [("CANDIDATE", 25%Q); ("CONFIRMED", 75%Q)]
          "cnn" 0%nat),
     World full_registry 1
       [EvDataFrame (PDict [("flux_values", flux_of_length 3196)]);
        EvKerasPredict (flux_of_length 3196)]) /\
  (serve (predict_single short_flux_request) strict_world).1
  = Response 500 (ErrorBody "Input 0 of layer is incompatible with the layer") /\
  serve (Backend2.predict_flux (PDict [("flux_data", flux_of_length 3196)])) full_world
  = (Response 400 (ErrorBody "Invalid input: Expected 3197 flux values, got 3196."),
     full_world).
Proof. repeat split; vm_compute; reflexivity. Qed.

(** ** Loading the artifacts *)

Ltac load_all :=
  unfold startup, Backend2.startup, load_models, load_models_try,
    Backend2.load_cnn, Backend2.load_xgb, load_model, cnn_source, initial_world;
  run; simpl.

(** X15. What [load_models] loads. It never raises. When no loader
    raises, each slot holds what its own path holds: a missing file leaves
    its slot empty and the other artifacts are loaded all the same. When a
    loader raises, loading ends there: the artifacts read before it stay
    loaded and the slots of every artifact after it, in the order XGBoost
    model, CNN model, scaler, label encoder, feature names, stay empty. In
    [backend2.py] the CNN model has a [try] of its own, so the XGBoost
    model and the scaler load whatever happens to the CNN file. *)
Theorem load_models_stops_at_the_first_failure (d : disk) :
  (exists w, load_models d initial_world = (inr tt, w)) /\
  (readable (xgb_file d) -> readable (cnn_source d) -> readable (scaler_file d) ->
   readable (encoder_file d) -> readable (features_file d) ->
   globals (startup d)
   = {| xgb_model := content (xgb_file d); cnn_model := content (cnn_source d);
        scaler := content (scaler_file d); label_encoder := content (encoder_file d);
        feature_names := content (features_file d) |}) /\
  (~ readable (xgb_file d) ->
   cnn_model (globals (startup d)) = None /\ scaler (globals (startup d)) = None /\
   label_encoder (globals (startup d)) = None /\
   feature_names (globals (startup d)) = None) /\
  (readable (xgb_file d) -> ~ readable (cnn_source d) ->
   globals (startup d)
   = {| xgb_model := content (xgb_file d); cnn_model := None; scaler := None;
        label_encoder := None; feature_names := None |}) /\
  (readable (xgb_file d) -> readable (cnn_source d) -> ~ readable (scaler_file d) ->
   globals (startup d)
   = {| xgb_model := content (xgb_file d); cnn_model := content (cnn_source d);
        scaler := None; label_encoder := None; feature_names := None |}) /\
  (readable (xgb_file d) -> readable (cnn_source d) -> readable (scaler_file d) ->
   ~ readable (encoder_file d) ->
   globals (startup d)
   = {| xgb_model := content (xgb_file d); cnn_model := content (cnn_source d);
        scaler := content (scaler_file d); label_encoder := None;
        feature_names := None |}) /\
  (readable (xgb_file d) -> readable (cnn_source d) -> readable (scaler_file d) ->
   readable (encoder_file d) -> ~ readable (features_file d) ->
   globals (startup d)
   = {| xgb_model := content (xgb_file d); cnn_model := content (cnn_source d);
        scaler := content (scaler_file d); label_encoder := content (encoder_file d);
        feature_names := None |}) /\
  (forall d2 : Backend2.disk,
     readable (Backend2.xgb_file d2) -> readable (Backend2.scaler_file d2) ->
     xgb_model (globals (Backend2.startup d2)) = content (Backend2.xgb_file d2) /\
     scaler (globals (Backend2.startup d2)) = content (Backend2.scaler_file d2)).
Proof.
  split; [|split; [|split; [|split; [|split; [|split; [|split]]]]]].
  - unfold load_models, try_except, ret.
    destruct (load_models_try d initial_world) as [[e|[]] w]; eauto.
  - destruct d as [x k h s e f r]. unfold cnn_source. simpl. intros Hx Hk Hs He Hf.
    destruct x; [| |done]; (destruct k; [destruct h| |]); simpl in Hk; try done;
      destruct s; try done; destruct e; try done; destruct f; try done.
  - destruct d as [x k h s e f r]. simpl. intros Hx.
    destruct x; [by destruct Hx|by destruct Hx|]. clear Hx.
    by load_all.
  - destruct d as [x k h s e f r]. unfold cnn_source. simpl. intros Hx Hk.
    destruct x; [| |done]; (destruct k; [destruct h| |]); simpl in Hk;
      first [done | by destruct Hk].
  - destruct d as [x k h s e f r]. unfold cnn_source. simpl. intros Hx Hk Hs.
    destruct x; [| |done]; (destruct k; [destruct h| |]); simpl in Hk; try done;
      destruct s; first [done | by destruct Hs].
  - destruct d as [x k h s e f r]. unfold cnn_source. simpl. intros Hx Hk Hs He.
    destruct x; [| |done]; (destruct k; [destruct h| |]); simpl in Hk; try done;
      destruct s; try done; destruct e; first [done | by destruct He].
  - destruct d as [x k h s e f r]. unfold cnn_source. simpl. intros Hx Hk Hs He Hf.
    destruct x; [| |done]; (destruct k; [destruct h| |]); simpl in Hk; try done;
      destruct s; try done; destruct e; try done; destruct f; first [done | by destruct Hf].
  - intros [k x s r]. simpl. intros Hx Hs.
    destruct x; [| |done]; destruct s; try done; destruct k; done.
Qed.

Lemma load_models_witness :
  globals (startup disk_without_scaler)
  = {| xgb_model := Some sample_xgb; cnn_model := Some sample_cnn; scaler := None;
       label_encoder := Some sample_encoder; feature_names := Some sample_features |}.
Proof.
  refine (proj1 (proj2 (load_models_stops_at_the_first_failure disk_without_scaler))
            _ _ _ _ _); exact I.
Defined.

(** C7. A corrupt artifact aborts the loading of the others. With an
    XGBoost file that cannot be parsed next to a sound CNN model, scaler,
    label encoder and feature-name list, [load_models] leaves all four
    unloaded: the one [try] of lines 50-84 ends at the first exception.
    The slot of the failed artifact is not empty either, it holds what
    [load_model] left of the classifier built on line 54. [backend2.py]
    gives the CNN model a [try] of its own, and there the same corrupt
    file does not keep the CNN model from loading. *)
Theorem corrupt_model_file_stops_the_loading :
  content (cnn_source disk_with_corrupt_xgb) = Some sample_cnn /\
  content (scaler_file disk_with_corrupt_xgb) = Some sample_scaler /\
  content (encoder_file disk_with_corrupt_xgb) = Some sample_encoder /\
  content (features_file disk_with_corrupt_xgb) = Some sample_features /\
  globals (startup disk_with_corrupt_xgb)
  = {| xgb_model := Some sample_remains; cnn_model := None; scaler := None;
       label_encoder := None; feature_names := None |} /\
  content (Backend2.cnn_file backend2_disk_with_corrupt_xgb) = Some sample_cnn /\
  cnn_model (globals (Backend2.startup backend2_disk_with_corrupt_xgb)) = Some sample_cnn.
Proof. repeat split. Qed.

(** * Further properties *)

(** ** What the batch endpoint answers *)

(** X1. [POST /api/predict/batch] never answers 200 and never touches the
    world: an empty body or an empty [data] entry is answered 400, and a
    body with a string [model] (or none) and a non-empty [data] entry is
    answered 500, whatever the observations are. *)
Theorem predict_batch_answers_400_or_500 (data : pyval) (w : world) :
  exists r,
    serve (predict_batch data) w = (r, w) /\
    (status_of r = 400%nat \/ status_of r = 500%nat) /\
    (truthy data = false -> r = Response 400 (ErrorBody "No data provided")) /\
    (forall d observations,
       data = PDict d ->
       assoc "model" d = None \/ (exists s, assoc "model" d = Some (PStr s)) ->
       assoc "data" d = Some observations ->
       (truthy observations = false ->
        r = Response 400 (ErrorBody "No observations provided")) /\
       (truthy observations = true -> status_of r = 500%nat)).
Proof.
  assert (Hret : exists r w', predict_batch data w = (inr r, w')).
  { unfold predict_batch, try_except, ret.
    destruct (predict_batch_try _ data w) as [[e|r] w']; eauto. }
  destruct Hret as (r & w' & Hrun).
  destruct (predict_batch_never_succeeds _ _ _ _ _ Hrun) as [Hst ->].
  exists r. unfold serve. rewrite Hrun. split; [done|]. split; [done|]. split.
  - intros Hf. revert Hrun. unfold predict_batch, predict_batch_try.
    rewrite Hf. run. by intros [= <-].
  - intros d observations -> Hm Hd.
    assert (Ht : truthy (PDict d) = true) by (by destruct d).
    revert Hrun. unfold predict_batch, predict_batch_try. rewrite Ht.
    unfold py_get. rewrite Hd.
    assert (Hl : exists mt, py_lower (match assoc "model" d with
                                      | Some x => x | None => PStr "xgboost" end) = inr mt).
    { destruct Hm as [->|[s ->]]; simpl; eauto. }
    destruct Hl as [mt Hl]. run. simpl. rewrite Hl. intros Hrun. split.
    + intros Hobs. rewrite Hobs in Hrun. simpl in Hrun. by injection Hrun as <-.
    + intros Hobs. rewrite Hobs in Hrun. simpl in Hrun.
      destruct (py_iter observations) as [e|items] eqn:Hi;
        [by injection Hrun as <-|].
      destruct items as [|obs rest]; [by eapply truthy_iter_nonempty in Hi|].
      destruct (each_observation_raises predict_single_view mt obs rest [] w) as [e He].
      rewrite He in Hrun. by injection Hrun as <-.
Qed.

(** ** Answers and model calls *)

Lemma respond_calls model_type prediction probabilities w :
  calls (respond model_type prediction probabilities w).2 = calls w.
Proof.
  unfold respond. destruct w as [g c l]. run. simpl. by cases.
Qed.

Lemma respond_status model_type prediction probabilities w r w' :
  respond model_type prediction probabilities w = (inr r, w') -> status_of r = 200%nat.
Proof. intros H. by apply respond_inr in H as (? & ? & ? & _ & _ & _ & -> & _). Qed.

(** What [xgboost_branch] adds to the log: nothing when it answers on the
    spot, both calls of the classifier when it hands on a prediction. *)
Lemma xgboost_branch_log df w o w' :
  xgboost_branch df w = (inr o, w') ->
  exists new,
    calls w' = (calls w ++ new)%list /\
    match o with
    | inl r => new = [] /\ status_of r <> 200%nat
    | inr _ => exists x, EvPredict x ∈ new /\ EvPredictProba x ∈ new
    end.
Proof.
  unfold xgboost_branch. destruct w as [g c l]. run. simpl. intros H.
  cases; rewrite <- ?app_assoc; simpl;
    first [ by exists []; rewrite app_nil_r
          | eexists; split; [reflexivity|]; eexists; split;
            eauto using list_elem_of_here, list_elem_of_further ].
Qed.

Lemma cnn_branch_log features w o w' :
  cnn_branch features w = (inr o, w') ->
  exists new,
    calls w' = (calls w ++ new)%list /\
    match o with
    | inl r => new = [] /\ status_of r <> 200%nat
    | inr _ => exists x, EvKerasPredict x ∈ new
    end.
Proof.
  unfold cnn_branch. destruct w as [g c l]. run. simpl. intros H.
  cases; rewrite <- ?app_assoc; simpl;
    first [ by exists []; rewrite app_nil_r
          | eexists; split; [reflexivity|]; eexists;
            eauto using list_elem_of_here, list_elem_of_further ].
Qed.

Lemma new_calls_app w w' new :
  calls w' = (calls w ++ new)%list -> new_calls w w' = new.
Proof. intros H. unfold new_calls. by rewrite H, drop_app_length. Qed.

(** X2. [POST /api/predict] answers 400 only before any model is called,
    and answers 200 only after the selected model was called: [predict] and
    [predict_proba] of the classifier on one and the same row, or [predict]
    of the network. *)
Theorem predict_single_status_and_model_calls (data : pyval) (w : world) :
  let out := serve (predict_single data) w in
  (status_of out.1 = 400%nat -> inference_free (new_calls w out.2)) /\
  (status_of out.1 = 200%nat ->
   (exists x, EvPredict x ∈ new_calls w out.2 /\ EvPredictProba x ∈ new_calls w out.2) \/
   (exists x, EvKerasPredict x ∈ new_calls w out.2)).
Proof.
  unfold serve, predict_single, predict_single_try. destruct w as [g c l]. run.
  cases.
  all: try match goal with
       | H : xgboost_branch _ _ = (inr _, _) |- _ =>
           apply xgboost_branch_log in H as (new & Hnew & Hlog)
       | H : cnn_branch _ _ = (inr _, _) |- _ =>
           apply cnn_branch_log in H as (new & Hnew & Hlog)
       end.
  all: try match goal with
       | H : respond ?a ?b ?c ?w1 = (inr _, ?w2) |- _ =>
           let Hc := fresh "Hc" in
           pose proof (respond_calls a b c w1) as Hc; rewrite H in Hc;
           simpl in Hc; rewrite Hnew in Hc; clear Hnew; rename Hc into Hnew;
           apply respond_status in H
       end.
  all: simpl in *.
  all: try (rewrite <- app_assoc in Hnew; apply (new_calls_app (World g c l)) in Hnew;
            rewrite Hnew).
  all: split; intros Hs; try congruence.
  all: try (unfold new_calls; simpl; rewrite ?drop_all, ?drop_app_length;
            by repeat constructor).
  all: try (destruct Hlog as [-> ?]; first [done | by repeat constructor]).
  - left. destruct Hlog as (x & Hp & Hpp). exists x.
    split; by apply list_elem_of_further.
  - right. destruct Hlog as (x & Hp). exists x. by apply list_elem_of_further.
Qed.

Lemma predict_single_status_witness :
  (exists x,
     EvPredict x ∈ new_calls full_world
                     (serve (predict_single (single_request "xgboost" kepler22b)) full_world).2 /\
     EvPredictProba x ∈ new_calls full_world
                     (serve (predict_single (single_request "xgboost" kepler22b)) full_world).2) \/
  (exists x,
     EvKerasPredict x ∈ new_calls full_world
                     (serve (predict_single (single_request "xgboost" kepler22b)) full_world).2).
Proof.
  apply (proj2 (predict_single_status_and_model_calls
                  (single_request "xgboost" kepler22b) full_world)).
  reflexivity.
Defined.

(** ** The probabilities of an answer *)

Lemma round_half_even_mono (q1 q2 : Q) :
  (q1 <= q2)%Q -> (round_half_even q1 <= round_half_even q2)%Z.
Proof.
  intros Hle. pose proof (Qfloor_resp_le _ _ Hle) as Hf.
  unfold round_half_even.
  destruct (Z.eq_dec (Qfloor q1) (Qfloor q2)) as [Heq|Hne].
  - rewrite <- Heq.
    assert (Hr : (q1 - inject_Z (Qfloor q1) <= q2 - inject_Z (Qfloor q1))%Q).
    { apply Qplus_le_compat; [done|apply Qle_refl]. }
    destruct (Qcompare (q1 - inject_Z (Qfloor q1)) (1 # 2)) eqn:H1,
             (Qcompare (q2 - inject_Z (Qfloor q1)) (1 # 2)) eqn:H2;
      try (destruct (Z.even (Qfloor q1)); lia); try lia; exfalso.
    + apply Qeq_alt in H1. apply Qlt_alt in H2. rewrite H1 in Hr.
      by apply Qle_not_lt in Hr.
    + apply Qgt_alt in H1. apply Qeq_alt in H2. rewrite H2 in Hr.
      by apply Qle_not_lt in Hr.
    + apply Qgt_alt in H1. apply Qlt_alt in H2.
      apply (Qle_not_lt _ _ Hr). by eapply Qlt_trans.
  - assert (Hlt : (Qfloor q1 + 1 <= Qfloor q2)%Z) by lia.
    destruct (Qcompare (q1 - inject_Z (Qfloor q1)) (1 # 2)),
             (Qcompare (q2 - inject_Z (Qfloor q2)) (1 # 2));
      try destruct (Z.even (Qfloor q1)); try destruct (Z.even (Qfloor q2)); lia.
Qed.

Lemma round2_percent_mono (p1 p2 : Q) :
  (p1 <= p2)%Q -> (round2 (percent p1) <= round2 (percent p2))%Q.
Proof.
  intros Hle. unfold round2, percent. rewrite !Qred_correct.
  assert (Hm : (round_half_even (p1 * 100 * 100) <= round_half_even (p2 * 100 * 100))%Z).
  { apply round_half_even_mono. revert Hle. unfold Qle, Qmult; simpl. nia. }
  revert Hm. generalize (round_half_even (p1 * 100 * 100)), (round_half_even (p2 * 100 * 100)).
  intros z1 z2 Hm. unfold Qle, Qdiv, Qmult, Qinv, inject_Z; simpl. lia.
Qed.

(** [argmax_from] keeps the position of a largest entry seen so far. *)
Lemma argmax_from_spec pre l best bv :
  pre !! best = Some bv -> Forall (fun x => (x <= bv)%Q) pre ->
  exists v, (pre ++ l)%list !! argmax_from best bv (length pre) l = Some v /\
            Forall (fun x => (x <= v)%Q) (pre ++ l)%list.
Proof.
  revert pre best bv. induction l as [|x l IH]; intros pre best bv Hb Hall; simpl.
  - rewrite app_nil_r. eauto.
  - destruct (Qle_bool x bv) eqn:Hx.
    + apply Qle_bool_iff in Hx.
      destruct (IH (pre ++ [x])%list best bv) as (v & Hv & Hmax).
      * by apply lookup_app_l_Some.
      * apply Forall_app; split; [done|by constructor].
      * rewrite length_app in Hv. simpl in Hv. rewrite Nat.add_1_r in Hv.
        rewrite <- app_assoc in Hv, Hmax. eauto.
    + assert (Hlt : (bv < x)%Q).
      { apply Qnot_le_lt. intros Hle. apply Qle_bool_iff in Hle. congruence. }
      destruct (IH (pre ++ [x])%list (length pre) x) as (v & Hv & Hmax).
      * by rewrite lookup_app_r, Nat.sub_diag.
      * apply Forall_app; split; [|constructor; [apply Qle_refl|constructor]].
        eapply Forall_impl; [exact Hall|]. intros y Hy. simpl in Hy.
        eapply Qle_trans; [exact Hy|by apply Qlt_le_weak].
      * rewrite length_app in Hv. simpl in Hv. rewrite Nat.add_1_r in Hv.
        rewrite <- app_assoc in Hv, Hmax. eauto.
Qed.

Lemma np_argmax_spec l i :
  np_argmax l = inr i ->
  exists v, l !! i = Some v /\ Forall (fun x => (x <= v)%Q) l.
Proof.
  destruct l as [|x l]; simpl; [done|]. intros [= <-].
  apply (argmax_from_spec [x] l 0 x); [done|].
  constructor; [apply Qle_refl|constructor].
Qed.

Lemma proba_table_spec le i ps t :
  proba_table le i ps = inr t ->
  length t = length ps /\
  forall j p, ps !! j = Some p ->
    exists k, proba_key le (i + j) = inr k /\ t !! j = Some (k, round2 (percent p)).
Proof.
  revert i t. induction ps as [|p ps IH]; intros i t; simpl.
  - intros [= <-]. split; [done|]. intros j p. by rewrite lookup_nil.
  - destruct (proba_key le i) as [e|k] eqn:Hk; [done|].
    destruct (proba_table le (S i) ps) as [e|t'] eqn:Ht; [done|]. intros [= <-].
    destruct (IH _ _ Ht) as [Hlen Hent]. split; [simpl; by rewrite Hlen|].
    intros [|j] q; simpl.
    + intros [= <-]. exists k. by rewrite Nat.add_0_r.
    + intros Hq. destruct (Hent j q Hq) as (k' & Hk' & Hl).
      exists k'. by rewrite Nat.add_succ_r.
Qed.

Lemma label_is_proba_key le prediction label :
  label_of le prediction label -> proba_key le prediction = inr label.
Proof. unfold label_of, proba_key. destruct le as [e|]; [by intros ->|by intros ->]. Qed.

Lemma xgboost_branch_clock df w o w' :
  xgboost_branch df w = (o, w') -> clock w' = clock w.
Proof. unfold xgboost_branch. destruct w as [g c l]. run. simpl. intros H. by cases. Qed.

Lemma cnn_branch_clock features w o w' :
  cnn_branch features w = (o, w') -> clock w' = clock w.
Proof. unfold cnn_branch. destruct w as [g c l]. run. simpl. intros H. by cases. Qed.

(** A 200 answer names the branch it went through. *)
Lemma predict_single_success_kind data w r w' :
  predict_single data w = (inr r, w') -> status_of r = 200%nat ->
  exists model_type prediction probabilities w1,
    globals w1 = globals w /\ clock w1 = clock w /\
    ((model_type = "xgboost" /\ xgb_outputs (globals w) prediction probabilities) \/
     (model_type = "cnn" /\ cnn_outputs (globals w) prediction probabilities)) /\
    respond model_type prediction probabilities w1 = (inr r, w').
Proof.
  unfold predict_single, predict_single_try. intros H Hs.
  destruct w as [g c l]. run. cases.
  all: try (exfalso; first [by eapply xgboost_branch_early | by eapply cnn_branch_early]).
  all: repeat match goal with
       | H : (_ =? _) = true |- _ => apply String.eqb_eq in H; subst
       end.
  all: match goal with
       | Hb : xgboost_branch _ _ = _ |- _ =>
           pose proof (xgboost_branch_clock _ _ _ _ Hb) as Hc;
           apply xgboost_branch_outputs in Hb as [Hout Hg]
       | Hb : cnn_branch _ _ = _ |- _ =>
           pose proof (cnn_branch_clock _ _ _ _ Hb) as Hc;
           apply cnn_branch_outputs in Hb as [Hout Hg]
       end; simpl in *; eauto 12.
Qed.

(** X3. In a 200 answer of [POST /api/predict] the [probabilities] mapping
    has one entry per probability the model returned, each the rounded
    percentage of that probability, the entry at the predicted index is
    [classification] with [confidence], [model_used] is [xgboost] or [cnn]
    according to the model that was asked, and the time stamp is the clock
    reading at the request. *)
Theorem successful_prediction_probabilities
    (data : pyval) (w : world) (cls : string) (conf : Q)
    (table : list (string * Q)) (used : string) (ts : nat) :
  (serve (predict_single data) w).1
    = Response 200 (PredictionBody cls conf table used ts) ->
  exists prediction probabilities,
    ((used = "xgboost" /\ xgb_outputs (globals w) prediction probabilities) \/
     (used = "cnn" /\ cnn_outputs (globals w) prediction probabilities)) /\
    length table = length probabilities /\
    table !! prediction = Some (cls, conf) /\
    (forall j p, probabilities !! j = Some p ->
       exists k, table !! j = Some (k, round2 (percent p))) /\
    ts = clock w.
Proof.
  unfold serve. intros H.
  destruct (predict_single data w) as [[e|r] w'] eqn:Hrun; simpl in H; [done|].
  subst r.
  apply predict_single_success_kind in Hrun
    as (mt & prediction & probabilities & w1 & Hg & Hc & Hout & Hresp); [|done].
  apply respond_inr in Hresp as (p & label & table' & Hp & Hlabel & Htable & Heq & _).
  injection Heq as -> -> -> -> ->.
  apply proba_table_spec in Htable as [Hlen Hent].
  exists prediction, probabilities. repeat split; try done.
  - destruct (Hent _ _ Hp) as (k & Hk & Hl). simpl in Hk.
    rewrite (label_is_proba_key _ _ _ Hlabel) in Hk. by injection Hk as <-.
  - intros j q Hq. destruct (Hent _ _ Hq) as (k & _ & Hl). eauto.
Qed.

Lemma successful_prediction_probabilities_witness :
  exists prediction probabilities,
    (("xgboost" = "xgboost" /\ xgb_outputs full_registry prediction probabilities) \/
     ("xgboost" = "cnn" /\ cnn_outputs full_registry prediction probabilities)) /\
    length [("CANDIDATE", 10%Q); ("CONFIRMED", 70%Q); ("FALSE POSITIVE", 20%Q)]
    = length probabilities /\
    [("CANDIDATE", 10%Q); ("CONFIRMED", 70%Q); ("FALSE POSITIVE", 20%Q)] !! prediction
    = Some ("CONFIRMED", 70%Q) /\
    (forall j p, probabilities !! j = Some p ->
       exists k, [("CANDIDATE", 10%Q); ("CONFIRMED", 70%Q); ("FALSE POSITIVE", 20%Q)] !! j
                 = Some (k, round2 (percent p))) /\
    0%nat = clock full_world.
Proof.
  apply (successful_prediction_probabilities
           (single_request "xgboost" kepler22b) full_world "CONFIRMED" 70%Q
           [("CANDIDATE", 10%Q); ("CONFIRMED", 70%Q); ("FALSE POSITIVE", 20%Q)]
           "xgboost" 0%nat).
  vm_compute. reflexivity.
Defined.

(** X4. In a 200 answer for [model: cnn], no entry of [probabilities] is
    larger than [confidence]: the predicted class is one of largest
    probability. *)
Theorem cnn_confidence_is_the_largest_probability
    (data : pyval) (w : world) (cls : string) (conf : Q)
    (table : list (string * Q)) (ts : nat) :
  (serve (predict_single data) w).1
    = Response 200 (PredictionBody cls conf table "cnn" ts) ->
  Forall (fun entry => (entry.2 <= conf)%Q) table.
Proof.
  unfold serve. intros H.
  destruct (predict_single data w) as [[e|r] w'] eqn:Hrun; simpl in H; [done|].
  subst r.
  apply predict_single_success_kind in Hrun
    as (mt & prediction & probabilities & w1 & Hg & Hc & Hout & Hresp); [|done].
  apply respond_inr in Hresp as (p & label & table' & Hp & Hlabel & Htable & Heq & _).
  injection Heq as -> -> -> <- ->.
  destruct Hout as [[Hmt _]|[_ (model & x & _ & _ & Harg)]]; [done|].
  apply np_argmax_spec in Harg as (v & Hv & Hmax).
  rewrite Hp in Hv. injection Hv as <-.
  apply proba_table_spec in Htable as [Hlen Hent].
  apply Forall_lookup. intros j [k q] Hj. simpl.
  assert (Hlt : (j < length probabilities)%nat).
  { rewrite <- Hlen. by eapply lookup_lt_Some. }
  apply lookup_lt_is_Some in Hlt as [pj Hpj].
  destruct (Hent _ _ Hpj) as (k' & _ & Hl). rewrite Hj in Hl. injection Hl as -> ->.
  apply round2_percent_mono.
  by eapply (proj1 (Forall_lookup _ _) Hmax).
Qed.

Lemma cnn_confidence_witness :
  Forall (fun entry => (entry.2 <= 75)%Q) [("CANDIDATE", 25%Q); ("CONFIRMED", 75%Q)].
Proof.
  apply (cnn_confidence_is_the_largest_probability
           (single_request "cnn" (PDict [("flux_values", flux_of_length 3)]))
           full_world "CONFIRMED" 75%Q [("CANDIDATE", 25%Q); ("CONFIRMED", 75%Q)] 0%nat).
  vm_compute. reflexivity.
Defined.

(** ** Key order and extra keys *)

Lemma cell_dict k fd :
  cell k (columns (pd_DataFrame (PDict fd))) (values (pd_DataFrame (PDict fd)))
  = assoc k fd.
Proof.
  simpl. unfold keys. induction fd as [|[k' v] fd IH]; [done|].
  cbn. destruct (String.eqb k k'); [done|exact IH].
Qed.

Lemma in_keys_assoc k fd : k ∈ keys fd <-> is_Some (assoc k fd).
Proof.
  unfold keys. induction fd as [|[k' v] fd IH]; simpl.
  - split; [by intros ?%elem_of_nil|by intros [? ?]].
  - rewrite elem_of_cons. destruct (String.eqb k k') eqn:Hk.
    + apply String.eqb_eq in Hk. split; [by eauto|by left].
    + apply String.eqb_neq in Hk. rewrite <- IH. split; [by intros [?|?]|by right].
Qed.

Lemma selected_dict names fd :
  selected names (pd_DataFrame (PDict fd)) = omap (fun k => assoc k fd) names.
Proof.
  unfold selected. induction names as [|k names IH]; [done|].
  cbn [omap list_omap]. rewrite cell_dict. by rewrite IH.
Qed.


Lemma selected_agree names fd1 fd2 :
  (forall k, k ∈ names -> assoc k fd1 = assoc k fd2) ->
  selected names (pd_DataFrame (PDict fd1)) = selected names (pd_DataFrame (PDict fd2)).
Proof.
  intros Hsame. rewrite !selected_dict.
  induction names as [|k names IH]; [done|].
  cbn [omap list_omap]. rewrite (Hsame k) by apply list_elem_of_here.
  rewrite IH; [done|]. intros k' Hk'. apply Hsame. by apply list_elem_of_further.
Qed.















(** ** backend2.py *)

Lemma filter_agree {A} (P Q : A -> Prop) `{!forall x, Decision (P x)}
    `{!forall x, Decision (Q x)} (l : list A) :
  (forall x, x ∈ l -> P x <-> Q x) -> filter P l = filter Q l.
Proof.
  induction l as [|x l IH]; intros Hpq; [done|].
  rewrite !filter_cons.
  assert (Hx : P x <-> Q x) by (apply Hpq, list_elem_of_here).
  rewrite IH by (intros y Hy; apply Hpq; by apply list_elem_of_further).
  destruct (decide (P x)), (decide (Q x)); tauto.
Qed.

Lemma df_select_agree names fd1 fd2 :
  (forall k, k ∈ names -> assoc k fd1 = assoc k fd2) ->
  df_select names (pd_DataFrame (PDict fd1)) = df_select names (pd_DataFrame (PDict fd2)).
Proof.
  intros Hsame. unfold df_select.
  rewrite (filter_agree (fun k => k ∉ column_names (pd_DataFrame (PDict fd1)))
             (fun k => k ∉ column_names (pd_DataFrame (PDict fd2)))).
  - fold (selected names (pd_DataFrame (PDict fd1))).
    fold (selected names (pd_DataFrame (PDict fd2))).
    by rewrite (selected_agree names fd1 fd2 Hsame).
  - intros k Hk. rewrite !column_names_dict, !in_keys_assoc. by rewrite (Hsame k Hk).
Qed.

Lemma df_select_present names fd :
  (forall k, k ∈ names -> is_Some (assoc k fd)) ->
  df_select names (pd_DataFrame (PDict fd))
  = inr {| columns := ColName <$> names; values := omap (fun k => assoc k fd) names |}.
Proof.
  intros Hall. unfold df_select.
  assert (Hf : filter (fun k => k ∉ column_names (pd_DataFrame (PDict fd))) names = []).
  { destruct (filter _ names) as [|x rest] eqn:Hfl; [done|]. exfalso.
    assert (Hx : x ∈ filter (fun k => k ∉ column_names (pd_DataFrame (PDict fd))) names)
      by (rewrite Hfl; apply list_elem_of_here).
    apply list_elem_of_filter in Hx as [Hn Hin]. apply Hn.
    rewrite column_names_dict. apply in_keys_assoc. by apply Hall. }
  rewrite Hf. fold (selected names (pd_DataFrame (PDict fd))). by rewrite selected_dict.
Qed.

(** X6. [POST /predict/features] of [backend2.py] reads the values under
    the nine names of [XGB_FEATURE_ORDER] and nothing else: two bodies that
    agree on those names get the same response, whatever their key order
    and other keys. When the nine are present, the scaler receives their
    values in the order of the list, the classifier receives what the
    scaler returns, the answer is [Exoplanet] exactly for class 1, and an
    exception of either is answered 400 with its message (after
    [Missing feature in request: ] when it is a [KeyError]). *)
Theorem predict_features_reads_the_nine_values
    (d1 d2 : list (string * pyval)) (w : world) :
  (forall k, k ∈ Backend2.XGB_FEATURE_ORDER -> assoc k d1 = assoc k d2) ->
  (serve (Backend2.predict_features (PDict d1)) w).1
  = (serve (Backend2.predict_features (PDict d2)) w).1 /\
  (forall model s,
     xgb_model (globals w) = Some model -> scaler (globals w) = Some s ->
     (forall k, k ∈ Backend2.XGB_FEATURE_ORDER -> is_Some (assoc k d1)) ->
     (serve (Backend2.predict_features (PDict d1)) w).1
     = match transform s (omap (fun k => assoc k d1) Backend2.XGB_FEATURE_ORDER) with
       | inl e => features_failure e
       | inr scaled =>
           match xgb_predict model scaled with
           | inl e => features_failure e
           | inr code => features_verdict code
           end
       end).
Proof.
  intros Hsame. split.
  - unfold serve, Backend2.predict_features, Backend2.xgb_scaler.
    destruct w as [g c l]. run. cbn [globals clock calls].
    destruct (xgb_model g) as [model|], (scaler g) as [s|]; try done.
    rewrite (df_select_agree _ d1 d2 Hsame).
    destruct (df_select Backend2.XGB_FEATURE_ORDER (pd_DataFrame (PDict d2)))
      as [e|df]; [by destruct (exn_kind_of e)|].
    destruct (transform s (values df)) as [e|x]; [by destruct (exn_kind_of e)|].
    destruct (xgb_predict model x) as [e|code]; [by destruct (exn_kind_of e)|done].
  - intros model s Hx Hs Hall.
    unfold serve, Backend2.predict_features, Backend2.xgb_scaler, features_verdict,
      features_failure.
    destruct w as [g c l]. simpl in Hx, Hs. run. cbn [globals clock calls].
    rewrite Hx, Hs. rewrite (df_select_present _ _ Hall). cbn [values].
    destruct (transform s _) as [e|x]; [by destruct (exn_kind_of e)|].
    destruct (xgb_predict model x) as [e|code]; [by destruct (exn_kind_of e)|done].
Qed.

Lemma predict_features_witness :
  (serve (Backend2.predict_features (PDict nine_features)) full_world).1
  = (serve (Backend2.predict_features
              (PDict (("kepid", PInt 10593626) :: reverse nine_features))) full_world).1.
Proof.
  refine (proj1 (predict_features_reads_the_nine_values
                   nine_features (("kepid", PInt 10593626) :: reverse nine_features)
                   full_world _)).
  intros k Hk. unfold Backend2.XGB_FEATURE_ORDER in Hk.
  repeat (apply elem_of_cons in Hk as [->|Hk]; [reflexivity|]).
  by apply elem_of_nil in Hk.
Defined.

(** X7. With the network loaded, [POST /predict/flux] of [backend2.py]
    never answers 500. A [flux_data] value of a length other than 3197 is
    answered 400 with both lengths and the network is not called; one of
    length 3197 is handed to the network once, and the answer is
    [Exoplanet] exactly when the first output is above one half, that
    output being returned as [probability]; an exception of the network is
    answered 400 with its message. *)
Theorem predict_flux_answers (data : pyval) (w : world) (model : KerasModel) :
  cnn_model (globals w) = Some model ->
  let out := serve (Backend2.predict_flux data) w in
  status_of out.1 <> 500%nat /\
  (forall flux n, py_getitem data "flux_data" = inr flux -> py_len flux = inr n ->
     n <> 3197%nat ->
     out = (Response 400
              (ErrorBody ("Invalid input: Expected 3197 flux values, got "
                          ++ pretty n ++ ".")), w)) /\
  (forall flux, py_getitem data "flux_data" = inr flux -> py_len flux = inr 3197%nat ->
     out = (match keras_predict model flux with
            | inl e => Response 400 (ErrorBody (exn_msg e))
            | inr [] =>
                Response 400 (ErrorBody "index 0 is out of bounds for axis 0 with size 0")
            | inr (p :: _) => flux_verdict p
            end, logged w [EvKerasPredict flux])).
Proof.
  intros Hm out. unfold out, serve, Backend2.predict_flux, flux_verdict, logged,
    Backend2.first_output, Backend2.above_half.
  destruct w as [g c l]. simpl in Hm. run. cbn [globals clock calls]. rewrite Hm.
  split; [|split].
  - destruct (py_getitem data "flux_data") as [e|flux]; [done|].
    destruct (py_len flux) as [e|n]; [done|].
    destruct (negb (n =? 3197)%nat); [done|].
    destruct (keras_predict model flux) as [e|[|p rest]]; try done;
      by destruct (Qle_bool p (1 # 2)).
  - intros flux n -> -> Hn. apply Nat.eqb_neq in Hn. by rewrite Hn.
  - intros flux -> ->. simpl.
    destruct (keras_predict model flux) as [e|[|p rest]]; try done;
      by destruct (Qle_bool p (1 # 2)).
Qed.

Lemma predict_flux_answers_witness :
  serve (Backend2.predict_flux (PDict [("flux_data", flux_of_length 3197)])) full_world
  = (Response 200 (VerdictBody "CNN Flux Model" "Not an Exoplanet" (Some (1 # 4)%Q)),
     World full_registry 0 [EvKerasPredict (flux_of_length 3197)]).
Proof.
  refine (proj2 (proj2 (predict_flux_answers
                          (PDict [("flux_data", flux_of_length 3197)])
                          full_world sample_cnn _)) (flux_of_length 3197) _ _).
  - reflexivity.
  - reflexivity.
  - vm_compute. reflexivity.
Defined.

(** X8. What [backend2.py] serves after its start-up. While the CNN file
    is missing or fails to load, every [POST /predict/flux] is answered
    500 [CNN model is not loaded.]. While the XGBoost model file or the
    scaler file is missing, or either fails to load, every
    [POST /predict/features] is answered 500; a model file that fails to
    load takes a sound scaler file down with it. With both files sound
    the features endpoint never gives that answer, whatever the CNN file. *)
Theorem backend2_serves_what_it_loaded (d : Backend2.disk) (data : pyval) :
  let w := Backend2.startup d in
  (content (Backend2.cnn_file d) = None ->
   serve (Backend2.predict_flux data) w
   = (Response 500 (ErrorBody "CNN model is not loaded."), w)) /\
  (content (Backend2.xgb_file d) = None \/ content (Backend2.scaler_file d) = None ->
   serve (Backend2.predict_features data) w
   = (Response 500 (ErrorBody "XGBoost model or scaler is not loaded."), w)) /\
  (is_Some (content (Backend2.xgb_file d)) ->
   is_Some (content (Backend2.scaler_file d)) ->
   (serve (Backend2.predict_features data) w).1
   <> Response 500 (ErrorBody "XGBoost model or scaler is not loaded.")).
Proof.
  destruct d as [k x s r]. simpl. split; [|split].
  - intros Hk. destruct k; [|done|]; destruct x, s; reflexivity.
  - intros Hxs. destruct x as [|m|ex].
    + destruct k, s; reflexivity.
    + destruct s as [|sc|e']; [|by destruct Hxs|]; destruct k; reflexivity.
    + destruct k, s; reflexivity.
  - intros [m Hm] [sc Hs]. destruct x; [done| |done]. destruct s; [done| |done].
    unfold serve, Backend2.predict_features, Backend2.xgb_scaler.
    destruct k; load_all;
      (destruct (df_select _ _) as [e1|df]; [by destruct (exn_kind_of e1)|]);
      (destruct (transform _ _) as [e2|y]; [by destruct (exn_kind_of e2)|]);
      (destruct (xgb_predict _ _) as [e3|code]; [by destruct (exn_kind_of e3)|done]).
Qed.

Lemma backend2_serves_witness :
  serve (Backend2.predict_features (PDict nine_features))
    (Backend2.startup backend2_disk_with_corrupt_xgb)
  = (Response 500 (ErrorBody "XGBoost model or scaler is not loaded."),
     Backend2.startup backend2_disk_with_corrupt_xgb).
Proof.
  refine (proj1 (proj2 (backend2_serves_what_it_loaded backend2_disk_with_corrupt_xgb
                          (PDict nine_features))) _).
  left. reflexivity.
Defined.

(** ** Health and model information *)

(** X9. What [GET /health] reports after start-up. [xgb_loaded] is true as
    soon as the XGBoost file exists, even when it could not be loaded;
    [cnn_loaded] and [scaler_loaded] are true when the file holds an
    artifact and no earlier loader raised. The status is always 200 and
    [healthy]. *)
Theorem health_after_startup (d : disk) :
  exists payload,
    (health_check (startup d)).1 = inr (Reply 200 payload) /\
    field "status" payload = Some (PStr "healthy") /\
    field "xgb_loaded" payload = Some (PBool (exists_ (xgb_file d))) /\
    field "cnn_loaded" payload
    = Some (PBool (loads (xgb_file d) && stored (cnn_source d))) /\
    field "scaler_loaded" payload
    = Some (PBool (loads (xgb_file d) && loads (cnn_source d) && stored (scaler_file d))).
Proof.
  eexists. split; [reflexivity|].
  destruct d as [[] [] [] [] [] [] r]; repeat split; reflexivity.
Qed.

Lemma proba_table_without_encoder i ps :
  exists t, proba_table None i ps = inr t.
Proof.
  revert i. induction ps as [|p ps IH]; intros i; simpl; [by eexists|].
  destruct (IH (S i)) as [t ->]. by eexists.
Qed.

(** X10. After a start-up in which the XGBoost file existed but could not
    be loaded, [xgb_model] is not [None]: it holds what [load_model] left
    of the classifier built on line 54. A tabular request with features is
    therefore not stopped by the guard of line 157: [predict] of that
    classifier is called on the raw values of the request, in request
    order, neither scaler nor feature names having been loaded. When it
    raises, the answer is 500 with its message; when it and
    [predict_proba] return and the predicted index has a probability, the
    answer is 200. *)
Theorem unloaded_classifier_is_called
    (d : disk) (e : exn) (body fd : list (string * pyval)) :
  xgb_file d = Unreadable e ->
  selects "xgboost" body -> assoc "features" body = Some (PDict fd) -> fd <> [] ->
  let out := serve (predict_single (PDict body)) (startup d) in
  xgb_model (globals (startup d)) = Some (xgb_remains d) /\
  (exists rest,
     new_calls (startup d) out.2
     = EvDataFrame (PDict fd) :: EvPredict fd.*2 :: rest) /\
  (forall ex,
     xgb_predict (xgb_remains d) fd.*2 = inl ex ->
     out = (Response 500 (ErrorBody (exn_msg ex)),
            logged (startup d) [EvDataFrame (PDict fd); EvPredict fd.*2])) /\
  (forall prediction probabilities p,
     xgb_predict (xgb_remains d) fd.*2 = inr prediction ->
     xgb_predict_proba (xgb_remains d) fd.*2 = inr probabilities ->
     probabilities !! prediction = Some p ->
     status_of out.1 = 200%nat).
Proof.
  intros Hx Hsel Hf Hne.
  assert (Ht : truthy (PDict fd) = true) by (by destruct fd).
  unfold serve. rewrite (predict_single_tabular body _ _ Hsel Hf Ht).
  destruct d as [x k h s en f r]. simpl in Hx. subst x.
  unfold logged, new_calls. load_all. unfold tabular_path, xgboost_branch, on_exception.
  run. simpl.
  split; [reflexivity|].
  destruct (xgb_predict r fd.*2) as [ex|prediction] eqn:Hp1.
  { split; [by eexists|]. split; [by intros ? [= <-]|]. by intros. }
  destruct (xgb_predict_proba r fd.*2) as [ex|probabilities] eqn:Hp2.
  { split; [by eexists|]. split; [done|]. by intros. }
  match goal with
  | |- context [respond ?a ?b ?c ?w] =>
      pose proof (respond_calls a b c w) as Hc;
      destruct (respond a b c w) as [[ex|resp] w1] eqn:Hr
  end; simpl in Hc |- *; rewrite Hc.
  - split; [by eexists|]. split; [done|].
    intros ? ? p [= <-] [= <-] Hp. exfalso. revert Hr.
    unfold respond, index_proba. run. simpl. rewrite Hp.
    destruct (proba_table_without_encoder 0 probabilities) as [t ->]. done.
  - split; [by eexists|]. split; [done|].
    intros ? ? p _ _ _. by eapply respond_status.
Qed.

Lemma unloaded_classifier_witness :
  serve (predict_single (single_request "xgboost" kepler22b))
    (startup disk_with_corrupt_xgb)
  = (Response 500 (ErrorBody "the booster holds no model"),
     logged (startup disk_with_corrupt_xgb)
       [EvDataFrame kepler22b;
        EvPredict [PFloat (2899 # 10); PFloat (54 # 10); PFloat 492; PFloat (24 # 10);
                   PFloat 262; PFloat (142 # 100); PFloat 5518; PFloat (98 # 100)]]).
Proof.
  refine (proj1 (proj2 (proj2
            (unloaded_classifier_is_called disk_with_corrupt_xgb
               (Exn ValueError "Invalid JSON model file")
               [("model", PStr "xgboost"); ("features", kepler22b)]
               [("koi_period", PFloat (2899 # 10)); ("koi_duration", PFloat (54 # 10));
                ("koi_depth", PFloat 492); ("koi_prad", PFloat (24 # 10));
                ("koi_teq", PFloat 262); ("koi_insol", PFloat (142 # 100));
                ("koi_steff", PFloat 5518); ("koi_srad", PFloat (98 # 100))]
               _ _ _ _))) (Exn ValueError "the booster holds no model") _).
  - reflexivity.
  - right. exists "xgboost". split; reflexivity.
  - reflexivity.
  - discriminate.
  - reflexivity.
Defined.

(** X11. [GET /api/models/info] lists, under [features], exactly the keys
    [POST /api/predict] requires of a tabular request: with the tabular
    model loaded, a non-empty feature mapping is answered with the
    missing-features 400 exactly when one of the listed names is not among
    its keys; and under [classes] it lists the labels a classification can
    take when an encoder is loaded. *)
Theorem model_info_lists_the_required_keys
    (body fd : list (string * pyval)) (w : world) (model : XGBClassifier) :
  selects "xgboost" body -> assoc "features" body = Some (PDict fd) -> fd <> [] ->
  xgb_model (globals w) = Some model ->
  exists payload names classes,
    model_info w = (inr (Reply 200 payload), w) /\
    field "features" payload = Some (py_strings names) /\
    field "classes" payload = Some (py_strings classes) /\
    (is_missing_body (serve (predict_single (PDict body)) w).1 = true
     <-> exists k, k ∈ names /\ k ∉ keys fd) /\
    (forall cls conf table used ts,
       (serve (predict_single (PDict body)) w).1
       = Response 200 (PredictionBody cls conf table used ts) ->
       is_Some (label_encoder (globals w)) -> cls ∈ classes).
Proof.
  intros Hsel Hf Hne Hx.
  assert (Ht : truthy (PDict fd) = true) by (by destruct fd).
  eexists _, (names_loaded (feature_names (globals w))),
    (classes_or_empty (label_encoder (globals w))).
  split; [by destruct w|]. split; [reflexivity|]. split; [reflexivity|]. split.
  - unfold serve at 1. rewrite (predict_single_tabular body _ w Hsel Hf Ht).
    fold (serve (tabular_path (PDict fd)) w).
    destruct (names_loaded (feature_names (globals w))) as [|n names'] eqn:Hn.
    + destruct (tabular_path_unvalidated (PDict fd) w model Hx Hn) as [-> _].
      split; [done|]. by intros (k & ?%elem_of_nil & _).
    + assert (Hfn : feature_names (globals w) = Some (n :: names')).
      { destruct (feature_names (globals w)); simpl in Hn; by subst. }
      destruct (decide (missing_features (n :: names') (pd_DataFrame (PDict fd)) = ∅))
        as [He|He].
      * destruct (tabular_path_validated _ w model _ Hx Hfn ltac:(done) He) as [-> _].
        split; [done|]. intros (k & Hk & Hnk). exfalso.
        assert (Hin : k ∈ missing_features (n :: names') (pd_DataFrame (PDict fd))).
        { apply elem_of_missing_features. by rewrite column_names_dict. }
        rewrite He in Hin. by apply not_elem_of_empty in Hin.
      * unfold serve. rewrite (tabular_path_missing _ w model _ Hx Hfn He). simpl.
        apply set_choose_L in He as [k Hk].
        apply elem_of_missing_features in Hk as [Hk Hnk].
        rewrite column_names_dict in Hnk. split; [eauto|done].
  - intros cls conf table used ts Hr [e He]. rewrite He. simpl.
    unfold serve in Hr.
    destruct (predict_single (PDict body) w) as [[ex|r] w'] eqn:Hrun; simpl in Hr; [done|].
    subst r.
    apply predict_single_success in Hrun as (mt & p & ps & w1 & Hg & _ & Hresp); [|done].
    apply respond_inr in Hresp as (q & label & t & _ & Hlabel & _ & Heq & _).
    injection Heq as -> _ _ _ _. rewrite Hg, He in Hlabel. simpl in Hlabel.
    by eapply list_elem_of_lookup_2.
Qed.

Lemma model_info_witness :
  exists payload names classes,
    model_info full_world = (inr (Reply 200 payload), full_world) /\
    field "features" payload = Some (py_strings names) /\
    field "classes" payload = Some (py_strings classes) /\
    (is_missing_body (serve (predict_single (single_request "xgboost" two_features))
                        full_world).1 = true
     <-> exists k, k ∈ names /\ k ∉ ["koi_period"; "koi_duration"]) /\
    (forall cls conf table used ts,
       (serve (predict_single (single_request "xgboost" two_features)) full_world).1
       = Response 200 (PredictionBody cls conf table used ts) ->
       is_Some (label_encoder (globals full_world)) -> cls ∈ classes).
Proof.
  apply (model_info_lists_the_required_keys
           [("model", PStr "xgboost"); ("features", two_features)]
           [("koi_period", PFloat (105 # 10)); ("koi_duration", PFloat (32 # 10))]
           full_world sample_xgb).
  - right. exists "xgboost". split; reflexivity.
  - reflexivity.
  - discriminate.
  - reflexivity.
Defined.

(** ** Feature importances *)

Lemma insert_by_importance_perm x l : insert_by_importance x l ≡ₚ x :: l.
Proof.
  induction l as [|y l IH]; simpl; [done|].
  destruct (Qle_bool y.2 x.2); [done|]. rewrite IH. apply Permutation_swap.
Qed.

Lemma insert_by_importance_sorted x l :
  StronglySorted by_importance l -> StronglySorted by_importance (insert_by_importance x l).
Proof.
  induction 1 as [|y l Hs IH Hy]; simpl; [by repeat constructor|].
  destruct (Qle_bool y.2 x.2) eqn:Hle.
  - apply Qle_bool_iff in Hle. constructor; [by constructor|].
    constructor; [exact Hle|].
    eapply Forall_impl; [exact Hy|]. intros z Hz. unfold by_importance in *.
    by eapply Qle_trans.
  - assert (Hlt : (x.2 < y.2)%Q).
    { apply Qnot_le_lt. intros H. apply Qle_bool_iff in H. congruence. }
    constructor; [exact IH|].
    rewrite insert_by_importance_perm. constructor; [|exact Hy].
    by apply Qlt_le_weak.
Qed.

Lemma sorted_by_importance_perm items : sorted_by_importance items ≡ₚ items.
Proof.
  induction items as [|x items IH]; simpl; [done|].
  by rewrite insert_by_importance_perm, IH.
Qed.

Lemma sorted_by_importance_sorted items :
  StronglySorted by_importance (sorted_by_importance items).
Proof.
  induction items as [|x items IH]; simpl; [constructor|].
  by apply insert_by_importance_sorted.
Qed.

Lemma dict_set_fresh k v d : k ∉ d.*1 -> dict_set k v d = (d ++ [(k, v)])%list.
Proof.
  induction d as [|[k' v'] d IH]; simpl; [done|].
  rewrite not_elem_of_cons. intros [Hne Hnin].
  apply String.eqb_neq in Hne. rewrite Hne. by rewrite IH.
Qed.

Lemma fold_dict_set_distinct items acc :
  NoDup (acc ++ items)%list.*1 ->
  fold_left (fun d kv => dict_set kv.1 kv.2 d) items acc = (acc ++ items)%list.
Proof.
  revert acc. induction items as [|[k v] items IH]; intros acc Hnd; simpl.
  - by rewrite app_nil_r.
  - assert (Hk : k ∉ acc.*1).
    { rewrite fmap_app in Hnd. apply NoDup_app in Hnd as (_ & Hdis & _).
      intros Hin. apply (Hdis k Hin). simpl. apply list_elem_of_here. }
    rewrite (dict_set_fresh _ _ _ Hk). rewrite IH; [by rewrite <- app_assoc|].
    by rewrite <- app_assoc.
Qed.

(** A dict built from items with distinct keys holds the items as they come. *)
Lemma dict_of_items_distinct items : NoDup items.*1 -> dict_of_items items = items.
Proof. intros Hnd. unfold dict_of_items. by rewrite fold_dict_set_distinct. Qed.

Lemma zip_keys_distinct (names : list string) (imps : list Q) :
  NoDup names -> NoDup (zip names imps).*1.
Proof.
  intros Hnd. revert imps. induction Hnd as [|k names Hk Hnd IH]; intros [|i imps]; simpl;
    try constructor; [|by apply IH].
  intros Hin. apply Hk. clear -Hin. revert imps Hin.
  induction names as [|n names IHn]; intros [|j imps]; simpl; try by intros ?%elem_of_nil.
  rewrite !elem_of_cons. intros [->|Hin]; [by left|right; by eapply IHn].
Qed.

Lemma default_feature_names_distinct n : NoDup (default_feature_names n).
Proof.
  unfold default_feature_names. apply NoDup_fmap_2_strong; [|apply NoDup_seq].
  intros i j _ _ Heq. simpl in Heq. injection Heq as Heq. by apply (inj pretty).
Qed.

(** X12. With the tabular model loaded and its importances readable,
    [GET /api/features/importance] answers 200. When the loaded feature
    names are distinct (or none is loaded, and [feature_0], [feature_1],
    ... are used), [importance] holds exactly the pairs of a name and its
    importance, as many as the shorter of the two lists, [top_5] holds the
    first five of them (all when there are fewer), and no entry left out of
    [top_5] has a larger importance than an entry of [top_5]. *)
Theorem feature_importance_top_5
    (importances_of : XGBClassifier -> result (list Q))
    (w : world) (model : XGBClassifier) (importances : list Q) :
  xgb_model (globals w) = Some model ->
  importances_of model = inr importances ->
  NoDup (names_loaded (feature_names (globals w))) ->
  let names := importance_names (globals w) (length importances) in
  exists table,
    feature_importance importances_of w
    = (inr (Reply 200
              (PDict [("importance", py_importances table);
                      ("top_5", py_importances (take 5 table))])), w) /\
    table ≡ₚ zip names importances /\
    length (take 5 table) = (5 `min` (length names `min` length importances))%nat /\
    (forall a b, a ∈ take 5 table -> b ∈ drop 5 table -> (b.2 <= a.2)%Q).
Proof.
  intros Hx Himp Hnd names.
  assert (Hnames : NoDup names).
  { unfold names, importance_names.
    destruct (names_loaded _); [apply default_feature_names_distinct|done]. }
  exists (sorted_by_importance (zip names importances)).
  assert (Hdict : dict_of_items (sorted_by_importance (zip names importances))
                  = sorted_by_importance (zip names importances)).
  { apply dict_of_items_distinct. rewrite sorted_by_importance_perm.
    by apply zip_keys_distinct. }
  split; [|split; [|split]].
  - unfold feature_importance, feature_importance_try.
    subst names. unfold importance_names in Hdict.
    destruct w as [g c l]. cbn [globals] in *. run. cbn [globals clock calls].
    rewrite Hx, Himp. cbn [globals clock calls snd]. by rewrite Hdict.
  - apply sorted_by_importance_perm.
  - rewrite length_take, sorted_by_importance_perm, length_zip. done.
  - intros a b Ha Hb.
    apply (StronglySorted_app_1_elem_of by_importance
             (take 5 (sorted_by_importance (zip names importances)))
             (drop 5 (sorted_by_importance (zip names importances)))); [|done|done].
    rewrite take_drop. apply sorted_by_importance_sorted.
Qed.

Lemma feature_importance_witness :
  exists table,
    feature_importance sample_importances full_world
    = (inr (Reply 200
              (PDict [("importance", py_importances table);
                      ("top_5", py_importances (take 5 table))])), full_world) /\
    table ≡ₚ zip sample_features
               [5 # 100; 30 # 100; 20 # 100; 10 # 100; 2 # 100; 25 # 100; 3 # 100; 5 # 100]%Q /\
    length (take 5 table) = 5%nat /\
    (forall a b, a ∈ take 5 table -> b ∈ drop 5 table -> (b.2 <= a.2)%Q).
Proof.
  apply (feature_importance_top_5 sample_importances full_world sample_xgb
           [5 # 100; 30 # 100; 20 # 100; 10 # 100; 2 # 100; 25 # 100; 3 # 100; 5 # 100]%Q).
  - reflexivity.
  - reflexivity.
  - apply (bool_decide_unpack _). vm_compute. exact I.
Defined.

Example feature_importance_sample :
  (feature_importance sample_importances full_world).1
  = inr (Reply 200
           (PDict [("importance",
                    PDict [("koi_duration", PFloat (30 # 100)); ("koi_insol", PFloat (25 # 100));
                           ("koi_depth", PFloat (20 # 100)); ("koi_prad", PFloat (10 # 100));
                           ("koi_period", PFloat (5 # 100)); ("koi_srad", PFloat (5 # 100));
                           ("koi_steff", PFloat (3 # 100)); ("koi_teq", PFloat (2 # 100))]);
                   ("top_5",
                    PDict [("koi_duration", PFloat (30 # 100)); ("koi_insol", PFloat (25 # 100));
                           ("koi_depth", PFloat (20 # 100)); ("koi_prad", PFloat (10 # 100));
                           ("koi_period", PFloat (5 # 100))])])).
Proof. vm_compute. reflexivity. Qed.

(** ** helli.py *)

Lemma all_in_dict names d :
  Helli.all_in names (PDict d) = inr (bool_decide (Forall (fun k => k ∈ keys d) names)).
Proof.
  induction names as [|k names IH]; simpl; [done|].
  destruct (decide (k ∈ keys d)) as [Hk|Hk].
  - rewrite (bool_decide_eq_true_2 _ Hk), IH. f_equal.
    apply bool_decide_ext. rewrite Forall_cons. tauto.
  - rewrite (bool_decide_eq_false_2 _ Hk). f_equal. symmetry.
    apply bool_decide_eq_false_2. rewrite Forall_cons. tauto.
Qed.

(** X13. [POST /predict] of [helli.py] on a JSON object: when one of
    [feature1], [feature2], [feature3] is not a key the answer is 400 and
    neither the scaler nor the model is called; otherwise the scaler gets
    the three values in that order, whatever the order of the keys and
    whatever other keys there are, the model gets what the scaler returns,
    and an exception of either is answered 500 with its message. *)
Theorem helli_predict_reads_three_features
    (model : Helli.Booster) (scaler : Scaler) (d : list (string * pyval)) (w : world) :
  (forall k, k ∈ Helli.required_features -> k ∉ keys d ->
     Helli.predict model scaler (PDict d) w
     = (inr (error_reply "Missing feature in request" 400), w)) /\
  (forall v1 v2 v3,
     assoc "feature1" d = Some v1 -> assoc "feature2" d = Some v2 ->
     assoc "feature3" d = Some v3 ->
     (Helli.predict model scaler (PDict d) w).1
     = inr (helli_answer model scaler [v1; v2; v3]) /\
     EvTransform [v1; v2; v3] ∈ new_calls w (Helli.predict model scaler (PDict d) w).2).
Proof.
  split.
  - intros k Hk Hnk. unfold Helli.predict. run. rewrite all_in_dict.
    rewrite bool_decide_eq_false_2; [done|].
    intros Hall. apply Hnk. by eapply (proj1 (Forall_forall _ _) Hall).
  - intros v1 v2 v3 H1 H2 H3. unfold Helli.predict, helli_answer. run.
    rewrite all_in_dict. rewrite bool_decide_eq_true_2.
    2: { unfold Helli.required_features.
         repeat (constructor; [by eapply assoc_some_in_keys|]). constructor. }
    simpl. rewrite H1, H2, H3. destruct w as [g c l]. unfold new_calls. simpl.
    destruct (transform scaler [v1; v2; v3]) as [e|x]; simpl.
    + split; [done|]. rewrite drop_app_length. apply list_elem_of_here.
    + destruct (Helli.booster_predict model x) as [e|p]; simpl;
        (split; [done|]); rewrite <- app_assoc, drop_app_length; apply list_elem_of_here.
Qed.

Lemma helli_predict_witness :
  Helli.predict sample_booster sample_scaler
    (PDict [("feature3", PInt 3); ("feature1", PInt 1)]) full_world
  = (inr (error_reply "Missing feature in request" 400), full_world).
Proof.
  refine (proj1 (helli_predict_reads_three_features sample_booster sample_scaler
                   [("feature3", PInt 3); ("feature1", PInt 1)] full_world)
            "feature2" _ _).
  - apply (bool_decide_unpack _). vm_compute. exact I.
  - apply (bool_decide_unpack _). vm_compute. exact I.
Defined.

(** ** backend.py *)

(** X14. [backend.py] binds its three globals to path strings, so its two
    endpoints never answer 200. [POST /predict/features] answers 400 when
    a name of [XGB_FEATURE_ORDER] is not a key and 500 otherwise, the
    string having no [transform]; [POST /predict/flux] answers a flux
    array of shape (3197,) with 500, the string having no [predict], and
    any other shape with 400. *)
Theorem backend_never_predicts
    (np_shape : pyval -> result (list nat)) (data : pyval) (w : world) :
  (forall r w', Backend.predict_features data w = (inr r, w') ->
     reply_status r = 400%nat \/
     r = error_reply
           "Error during preprocessing: 'str' object has no attribute 'transform'" 500) /\
  (forall r w', Backend.predict_flux np_shape data w = (inr r, w') ->
     reply_status r = 400%nat \/
     r = error_reply
           "Error during prediction: 'str' object has no attribute 'predict'" 500) /\
  (forall d k, data = PDict d -> k ∈ Backend.XGB_FEATURE_ORDER -> k ∉ keys d ->
     exists msg,
       (Backend.predict_features data w).1
       = inr (error_reply ("Missing feature in request: " ++ msg) 400)) /\
  (forall d, data = PDict d ->
     (forall k, k ∈ Backend.XGB_FEATURE_ORDER -> is_Some (assoc k d)) ->
     (Backend.predict_features data w).1
     = inr (error_reply
              "Error during preprocessing: 'str' object has no attribute 'transform'" 500)) /\
  (forall d flux, data = PDict d -> assoc "flux_data" d = Some flux ->
     np_shape flux = inr [3197%nat] ->
     Backend.predict_flux np_shape data w
     = (inr (error_reply
               "Error during prediction: 'str' object has no attribute 'predict'" 500), w)).
Proof.
  split; [|split; [|split; [|split]]].
  - intros r w'. unfold Backend.predict_features, Backend.call_method. run. simpl.
    unfold df_select. destruct (filter _ _) as [|k rest]; simpl.
    + intros [= <- _]. by right.
    + intros [= <- _]. by left.
  - intros r w'. unfold Backend.predict_flux, Backend.call_method. run. simpl.
    destruct (py_contains "flux_data" data) as [e|[|]]; simpl; try done;
      [|intros [= <- _]; by left].
    destruct (py_getitem data "flux_data") as [e|flux]; [done|].
    destruct (np_shape flux) as [e|[|n [|m shape]]]; try done;
      try (intros [= <- _]; by left).
    destruct (negb (n =? 3197)%nat); intros [= <- _]; [by left|by right].
  - intros d k -> Hk Hnk. unfold Backend.predict_features, Backend.call_method. run.
    unfold df_select.
    destruct (filter _ Backend.XGB_FEATURE_ORDER) as [|x rest] eqn:Hf.
    { exfalso. eapply (filter_nil_not_elem_of _ _ k Hf); [|exact Hk].
      by rewrite column_names_dict. }
    simpl. eauto.
  - intros d -> Hall. unfold Backend.predict_features, Backend.call_method. run.
    by rewrite (df_select_present _ _ Hall).
  - intros d flux -> Hf Hs. unfold Backend.predict_flux, Backend.call_method. run. simpl.
    rewrite (bool_decide_eq_true_2 _ (assoc_some_in_keys _ _ _ Hf)). simpl.
    by rewrite Hf, Hs.
Qed.

Lemma backend_never_predicts_witness :
  Backend.predict_flux flat_shape (PDict [("flux_data", flux_of_length 3197)]) full_world
  = (inr (error_reply
            "Error during prediction: 'str' object has no attribute 'predict'" 500),
     full_world).
Proof.
  refine (proj2 (proj2 (proj2 (proj2
            (backend_never_predicts flat_shape
               (PDict [("flux_data", flux_of_length 3197)]) full_world))))
            [("flux_data", flux_of_length 3197)] (flux_of_length 3197) _ _ _).
  - reflexivity.
  - reflexivity.
  - vm_compute. reflexivity.
Defined.
